(** * Automation manager of the Interchange Python extension

    A shallow embedding of [python_api/automation/manager.py]
    ([FileEventHandler] and [AutomationManager]) together with the part of
    [python_api/core/translators.py] the manager calls, and the
    properties of the automation engine proved about it. *)

From Stdlib Require Import ZArith Floats Ascii String.
From stdpp Require Import base option list strings pretty gmap.

Local Open Scope string_scope.
Local Open Scope Z_scope.

(** ** Python built-ins and standard-library functions used by the manager *)

Module Py.

(** [str.lower()] on ASCII text: the letters [A] to [Z] are lower-cased
    and every other character is kept. On a string of ASCII characters
    ([isascii], below) this is what [str.lower()] returns. Python also
    lower-cases letters outside ASCII: the properties that decide by the
    lower-casing of a name are stated for ASCII names, or do not depend on
    what happens outside ASCII. *)
Definition lower_ascii (c : ascii) : ascii :=
  let n := nat_of_ascii c in
  if (Nat.leb 65 n && Nat.leb n 90)%bool then ascii_of_nat (n + 32) else c.

Fixpoint lower (s : string) : string :=
  match s with
  | EmptyString => EmptyString
  | String c r => String (lower_ascii c) (lower r)
  end.

(** [str(n)] and [f"{n}"] for an int. *)
Definition str_int (n : Z) : string := pretty n.

(** ["=" * n]. *)
Fixpoint repeat_string (s : string) (n : nat) : string :=
  match n with
  | O => ""
  | S k => s +:+ repeat_string s k
  end.

(** ["\n".join(lines)]. *)
Fixpoint join (sep : string) (l : list string) : string :=
  match l with
  | [] => ""
  | [x] => x
  | x :: r => x +:+ sep +:+ join sep r
  end.

(** [s.startswith(p)]. *)
Fixpoint startswith (p s : string) : bool :=
  match p, s with
  | EmptyString, _ => true
  | String a p', String b s' => if Ascii.eqb a b then startswith p' s' else false
  | String _ _, EmptyString => false
  end.

(** [s.endswith(p)]. *)
Definition endswith (p s : string) : bool :=
  startswith (String.rev p) (String.rev s).

(** [x in l] for a list of strings. *)
Definition str_in (x : string) (l : list string) : bool :=
  bool_decide (x ∈ l).

(** [os.path.basename] (posixpath): what follows the last ['/']. *)
Fixpoint basename_aux (s acc : string) : string :=
  match s with
  | EmptyString => acc
  | String c r =>
      if Ascii.eqb c "/" then basename_aux r "" else basename_aux r (acc +:+ String c "")
  end.

Definition basename (p : string) : string := basename_aux p "".

(** [os.path.splitext(p)[1]] (genericpath._splitext with sep ['/']): the
    extension starts at the last dot of the basename, unless that dot is
    only preceded by dots. *)
Fixpoint all_dots (s : string) : bool :=
  match s with
  | EmptyString => true
  | String c r => if Ascii.eqb c "." then all_dots r else false
  end.

(** [ext_aux seen s]: [seen] is the part of the basename already read,
    the result is the suffix from the last admissible dot. *)
Fixpoint ext_aux (seen s : string) (best : string) : string :=
  match s with
  | EmptyString => best
  | String c r =>
      let best' :=
        if (Ascii.eqb c "." && negb (all_dots seen))%bool then String c r else best in
      ext_aux (seen +:+ String c "") r best'
  end.

Definition splitext_ext (p : string) : string := ext_aux "" (basename p) "".

(** *** [datetime.datetime] and [datetime.timedelta] *)

Record datetime := mk_datetime {
  dt_year : Z; dt_month : Z; dt_day : Z;
  dt_hour : Z; dt_minute : Z; dt_second : Z; dt_microsecond : Z
}.

(** ["%0wd" % n] for a non-negative [n]. *)
Definition zero_pad (w : nat) (n : Z) : string :=
  let s := str_int n in
  repeat_string "0" (w - String.length s) +:+ s.

(** [datetime.isoformat()] of a naive datetime. *)
Definition isoformat (d : datetime) : string :=
  zero_pad 4 (dt_year d) +:+ "-" +:+ zero_pad 2 (dt_month d) +:+ "-" +:+ zero_pad 2 (dt_day d)
  +:+ "T" +:+ zero_pad 2 (dt_hour d) +:+ ":" +:+ zero_pad 2 (dt_minute d) +:+ ":"
  +:+ zero_pad 2 (dt_second d)
  +:+ (if dt_microsecond d =? 0 then "" else "." +:+ zero_pad 6 (dt_microsecond d)).

Definition is_leap (y : Z) : bool :=
  ((y mod 4 =? 0) && (negb (y mod 100 =? 0) || (y mod 400 =? 0)))%bool.

Definition days_before_year (y : Z) : Z :=
  let y1 := y - 1 in y1 * 365 + y1 / 4 - y1 / 100 + y1 / 400.

Definition days_before_month (y m : Z) : Z :=
  nth (Z.to_nat m) [0; 0; 31; 59; 90; 120; 151; 181; 212; 243; 273; 304; 334] 0
  + (if ((2 <? m) && is_leap y)%bool then 1 else 0).

Definition toordinal (d : datetime) : Z :=
  days_before_year (dt_year d) + days_before_month (dt_year d) (dt_month d) + dt_day d.

(** A normalised [timedelta]: [0 <= seconds < 86400], [0 <= microseconds < 10^6]. *)
Record timedelta := mk_timedelta { td_days : Z; td_seconds : Z; td_microseconds : Z }.

Definition timedelta_of (days secs us : Z) : timedelta :=
  let secs1 := secs + us / 1000000 in
  mk_timedelta (days + secs1 / 86400) (secs1 mod 86400) (us mod 1000000).

(** [a - b] for two datetimes. *)
Definition datetime_sub (a b : datetime) : timedelta :=
  timedelta_of (toordinal a - toordinal b)
    ((dt_second a + dt_minute a * 60 + dt_hour a * 3600)
     - (dt_second b + dt_minute b * 60 + dt_hour b * 3600))
    (dt_microsecond a - dt_microsecond b).

(** [str(timedelta)]. *)
Definition str_timedelta (t : timedelta) : string :=
  let mm := td_seconds t / 60 in
  let ss := td_seconds t mod 60 in
  let hh := mm / 60 in
  let mm := mm mod 60 in
  (if td_days t =? 0 then ""
   else str_int (td_days t) +:+ " day" +:+ (if Z.abs (td_days t) =? 1 then "" else "s") +:+ ", ")
  +:+ str_int hh +:+ ":" +:+ zero_pad 2 mm +:+ ":" +:+ zero_pad 2 ss
  +:+ (if td_microseconds t =? 0 then "" else "." +:+ zero_pad 6 (td_microseconds t)).

(** *** Floats (IEEE 754 binary64, as [float] in CPython) *)

(** [float(n)] for a small non-negative int. *)
Definition float_of_Z (n : Z) : float := PrimFloat.of_uint63 (Uint63.of_Z n).

(** Truth value of a float: [0.0] and [-0.0] are falsy. *)
Definition float_truthy (x : float) : bool :=
  negb (PrimFloat.eqb x PrimFloat.zero).

(** [format(x, ".<d>f")]: the exact binary value rounded half-to-even to
    [d] decimals. *)
Definition round_half_even (num den : Z) : Z :=
  let q := num / den in
  let r := num mod den in
  if 2 * r <? den then q
  else if den <? 2 * r then q + 1
  else if Z.even q then q else q + 1.

Definition fixed_digits (d : nat) (neg : bool) (n : Z) : string :=
  let p := 10 ^ Z.of_nat d in
  (if neg then "-" else "") +:+ str_int (n / p)
  +:+ (if Nat.eqb d 0 then "" else "." +:+ zero_pad d (n mod p)).

Definition format_f (d : nat) (x : float) : string :=
  match Prim2SF x with
  | S754_nan => "nan"
  | S754_infinity s => if s then "-inf" else "inf"
  | S754_zero s => fixed_digits d s 0
  | S754_finite s m e =>
      let num := Z.pos m * 10 ^ Z.of_nat d in
      let n := if 0 <=? e then num * 2 ^ e else round_half_even num (2 ^ (- e)) in
      fixed_digits d s n
  end.

(** [sum(l)] over floats, added left to right from the int [0] (the
    plain summation of CPython before 3.12; later versions compensate the
    rounding errors of the partial sums). *)
Definition sum_floats (l : list float) : float :=
  fold_left PrimFloat.add l (float_of_Z 0).

(** [min(l)] and [max(l)] of a non-empty list: the first extremal element. *)
Definition min_floats (x : float) (l : list float) : float :=
  fold_left (fun cur y => if PrimFloat.ltb y cur then y else cur) l x.

Definition max_floats (x : float) (l : list float) : float :=
  fold_left (fun cur y => if PrimFloat.ltb cur y then y else cur) l x.

(** [l[-n:]] for [n > 0]. *)
Definition last_n {A} (n : nat) (l : list A) : list A :=
  drop (length l - n) l.

(** [str.isascii()]: every character of the string is an ASCII character. *)
Fixpoint isascii (s : string) : bool :=
  match s with
  | EmptyString => true
  | String c r => (Nat.ltb (nat_of_ascii c) 128 && isascii r)%bool
  end.

End Py.

(** ** Data model *)

(** An [int] or a [float], for values the code computes as either. *)
Inductive PyNum := PyInt (n : Z) | PyFloat (x : float).

Definition format_num (d : nat) (v : PyNum) : string :=
  match v with
  | PyInt n => Py.format_f d (Py.float_of_Z n)
  | PyFloat x => Py.format_f d x
  end.

(** A [dict] from strings that keeps insertion order, as [files_per_category]. *)
Definition odict (V : Type) := list (string * V).

Fixpoint dict_get {V} (k : string) (d : odict V) : option V :=
  match d with
  | [] => None
  | (k', v) :: r => if String.eqb k k' then Some v else dict_get k r
  end.

Fixpoint dict_set {V} (k : string) (v : V) (d : odict V) : odict V :=
  match d with
  | [] => [(k, v)]
  | (k', v') :: r => if String.eqb k k' then (k', v) :: r else (k', v') :: dict_set k v r
  end.

(** An entry of [config['watch_folders']]. *)
Record WatchEntry := mkWatchEntry {
  we_path : string;
  we_category : string;
  we_enabled : option bool;
  we_added_time : string
}.

(** A value of [config['import_rules']]; an absent key is [None]. *)
Record ImportRule := mkImportRule {
  destination : option string;
  translator_options : option (odict string);
  file_patterns : option (list string);
  auto_import : option bool
}.

(** [config['quality_checks']]. *)
Record QualityChecks := mkQualityChecks {
  enabled : option bool;
  max_file_size_mb : option Z;
  min_file_size_bytes : option Z;
  allowed_extensions : option (list string)
}.

(** The configuration document; each top-level key may be absent. *)
Record Config := mkConfig {
  watch_folders : option (list WatchEntry);
  import_rules : option (gmap string ImportRule);
  quality_checks : option QualityChecks
}.

(** [self.statistics]. *)
Record Statistics := mkStatistics {
  total_processed : Z;
  successful_imports : Z;
  failed_imports : Z;
  start_time : option Py.datetime;
  last_activity : option Py.datetime;
  files_per_category : odict Z;
  processing_times : list float
}.

Inductive Level := INFO | WARNING | ERROR.

(** What the logger received: level and message. *)
Definition LogRecord : Type := Level * string.

(** The result of a call: a returned value or a raised exception, with
    the text of the exception. *)
Inductive Res (A : Type) := Ok (a : A) | Raise (e : string).
Arguments Ok {A} a.
Arguments Raise {A} e.

(** ** The environment of the manager *)

(** The operating system and the libraries behind [os.path], [fnmatch],
    [time], [datetime], watchdog and the configuration store. The clock is
    read by index: the [n]-th reading of the run. *)
Record World := mkWorld {
  path_exists : string -> bool;
  getsize : string -> Z;
  abspath : string -> string;
  fnmatch : string -> string -> bool;
  time_time : nat -> float;
  datetime_now : nat -> Py.datetime;
  watchdog_available : bool;
  observer_error : string -> option string;
  save_config_error : Config -> option string;
  write_error : string -> option string
}.

(** The methods of [self.translator] the manager calls. A call sees the
    world and the number of clock readings so far, and gives its outcome,
    the translator's new state and the number of clock readings it made. *)
Class Backend (B : Type) := {
  validate_file : World -> nat -> B -> string -> Res (bool * string) * B * nat;
  set_options : World -> nat -> B -> odict string -> Res unit * B * nat;
  import_file : World -> nat -> B -> string -> string -> Res bool * B * nat
}.

(** ** [core/translators.py]: [CustomFooTranslator] *)

Module Translator.

(** The native translator object behind [_translator_instance]. *)
Record Native := mkNative {
  can_translate_file_native : string -> Res bool;
  translate_file_from_python : string -> string -> Res bool;
  validate_file_for_translation : string -> Res bool
}.

Record CustomFooTranslator := mkTranslator {
  _translator_instance : option Native;
  total_translations : Z;
  successful_translations : Z;
  failed_translations : Z;
  total_time : float
}.

Definition add_failed (t : CustomFooTranslator) : CustomFooTranslator :=
  mkTranslator (_translator_instance t) (total_translations t)
    (successful_translations t) (failed_translations t + 1) (total_time t).

Definition add_successful (t : CustomFooTranslator) : CustomFooTranslator :=
  mkTranslator (_translator_instance t) (total_translations t)
    (successful_translations t + 1) (failed_translations t) (total_time t).

Definition add_total (t : CustomFooTranslator) : CustomFooTranslator :=
  mkTranslator (_translator_instance t) (total_translations t + 1)
    (successful_translations t) (failed_translations t) (total_time t).

Definition add_time (dt : float) (t : CustomFooTranslator) : CustomFooTranslator :=
  mkTranslator (_translator_instance t) (total_translations t)
    (successful_translations t) (failed_translations t) (PrimFloat.add (total_time t) dt).

Definition can_translate_file (w : World) (t : CustomFooTranslator) (file_path : string) : bool :=
  if negb (path_exists w file_path) then false
  else match _translator_instance t with
       | None => Py.endswith ".foo" (Py.lower file_path)
       | Some n =>
           match can_translate_file_native n file_path with
           | Ok b => b
           | Raise _ => false
           end
       end.

(** The body of [import_file] inside [try], before the [finally] block. *)
Definition import_file_body (w : World) (t : CustomFooTranslator)
    (file_path destination_path : string) : bool * CustomFooTranslator :=
  if negb (path_exists w file_path) then (false, add_failed t)
  else if negb (can_translate_file w t file_path) then (false, add_failed t)
  else match _translator_instance t with
       | None => (true, add_successful t)
       | Some n =>
           match translate_file_from_python n file_path destination_path with
           | Ok true => (true, add_successful t)
           | Ok false => (false, add_failed t)
           | Raise _ => (false, add_failed t)
           end
       end.

Definition import_file (w : World) (k : nat) (t : CustomFooTranslator)
    (file_path destination_path : string) : Res bool * CustomFooTranslator * nat :=
  let start_time := time_time w k in
  let '(r, t1) := import_file_body w (add_total t) file_path destination_path in
  let elapsed_time := PrimFloat.sub (time_time w (S k)) start_time in
  (Ok r, add_time elapsed_time t1, 2%nat).

Definition validate_file (w : World) (k : nat) (t : CustomFooTranslator)
    (file_path : string) : Res (bool * string) * CustomFooTranslator * nat :=
  match _translator_instance t with
  | None =>
      if negb (path_exists w file_path) then
        (Ok (false, "File does not exist: " +:+ file_path), t, 0%nat)
      else if negb (Py.endswith ".foo" (Py.lower file_path)) then
        (Ok (false, "Unsupported file format: " +:+ Py.splitext_ext file_path), t, 0%nat)
      else (Ok (true, ""), t, 0%nat)
  | Some n =>
      match validate_file_for_translation n file_path with
      | Ok b => (Ok (b, ""), t, 0%nat)
      | Raise e => (Ok (false, "Validation error: " +:+ e), t, 0%nat)
      end
  end.

(** [set_options] only forwards the options to the native object and
    swallows its errors; the wrapper's own state is unchanged. *)
Definition set_options (w : World) (k : nat) (t : CustomFooTranslator)
    (options : odict string) : Res unit * CustomFooTranslator * nat :=
  (Ok tt, t, 0%nat).

Definition new (inst : option Native) : CustomFooTranslator :=
  mkTranslator inst 0 0 0 (Py.float_of_Z 0).

End Translator.

#[export] Instance translator_backend : Backend Translator.CustomFooTranslator := {
  validate_file := Translator.validate_file;
  set_options := Translator.set_options;
  import_file := Translator.import_file
}.

(** ** [automation/manager.py]: [AutomationManager] *)

(** What [get_statistics] adds to the copy of [self.statistics]. The two
    uptime keys are both derived from the one [timedelta] kept here. *)
Record StatsView := mkStatsView {
  stats : Statistics;
  average_processing_time : option float;
  min_processing_time : option float;
  max_processing_time : option float;
  success_rate : PyNum;
  uptime : option Py.timedelta;
  monitoring_enabled : bool;
  watched_folders : Z;
  import_rules_count : Z
}.

(** A record of [results['details']]. *)
Record Detail := mkDetail {
  d_file : string;
  d_status : string;
  d_destination : option string;
  d_error : option string
}.

(** The dictionary [batch_import_files] returns. *)
Record BatchResults := mkBatchResults {
  total_files : Z;
  successful : Z;
  failed : Z;
  batch_start_time : string;
  details : list Detail;
  end_time : option string;
  duration_seconds : option float;
  batch_success_rate : option PyNum
}.

Section Manager.

Context {B : Type} `{Backend B}.
Variable w : World.

(** The manager object and what it acts on: the log it wrote, the
    configuration last persisted, the files it wrote, and how many times
    the clock has been read. *)
Record State := mkState {
  config : Config;
  statistics : Statistics;
  is_monitoring : bool;
  observers : gmap string string;
  translator : B;
  clock : nat;
  log : list LogRecord;
  config_store : option Config;
  written : list (string * string)
}.

Definition set_config (c : Config) (s : State) : State :=
  mkState c (statistics s) (is_monitoring s) (observers s) (translator s)
    (clock s) (log s) (config_store s) (written s).

Definition set_statistics (st : Statistics) (s : State) : State :=
  mkState (config s) st (is_monitoring s) (observers s) (translator s)
    (clock s) (log s) (config_store s) (written s).

Definition set_is_monitoring (b : bool) (s : State) : State :=
  mkState (config s) (statistics s) b (observers s) (translator s)
    (clock s) (log s) (config_store s) (written s).

Definition set_observers (o : gmap string string) (s : State) : State :=
  mkState (config s) (statistics s) (is_monitoring s) o (translator s)
    (clock s) (log s) (config_store s) (written s).

Definition set_translator (t : B) (s : State) : State :=
  mkState (config s) (statistics s) (is_monitoring s) (observers s) t
    (clock s) (log s) (config_store s) (written s).

Definition set_clock (k : nat) (s : State) : State :=
  mkState (config s) (statistics s) (is_monitoring s) (observers s) (translator s)
    k (log s) (config_store s) (written s).

Definition set_log (l : list LogRecord) (s : State) : State :=
  mkState (config s) (statistics s) (is_monitoring s) (observers s) (translator s)
    (clock s) l (config_store s) (written s).

Definition set_config_store (c : option Config) (s : State) : State :=
  mkState (config s) (statistics s) (is_monitoring s) (observers s) (translator s)
    (clock s) (log s) c (written s).

Definition set_written (l : list (string * string)) (s : State) : State :=
  mkState (config s) (statistics s) (is_monitoring s) (observers s) (translator s)
    (clock s) (log s) (config_store s) l.

(** *** State and exception monad *)

Definition M (A : Type) : Type := State -> Res A * State.

Definition ret {A} (a : A) : M A := fun s => (Ok a, s).

Definition raise {A} (e : string) : M A := fun s => (Raise e, s).

Definition bind {A C} (m : M A) (f : A -> M C) : M C :=
  fun s => match m s with
           | (Ok a, s') => f a s'
           | (Raise e, s') => (Raise e, s')
           end.

Notation "x <- m ;; k" := (bind m (fun x => k))
  (at level 63, m at next level, right associativity).
Notation "m ;;; k" := (bind m (fun _ => k))
  (at level 63, right associativity).

(** [try: m except Exception as e: h e]. *)
Definition try_except {A} (m : M A) (h : string -> M A) : M A :=
  fun s => match m s with
           | (Ok a, s') => (Ok a, s')
           | (Raise e, s') => h e s'
           end.

(** [try: m finally: f]: [f] runs whatever [m] did; the outcome is that of
    [m] unless [f] raises. *)
Definition try_finally {A} (m : M A) (f : M unit) : M A :=
  fun s => match m s with
           | (r, s') =>
               match f s' with
               | (Ok _, s'') => (r, s'')
               | (Raise e, s'') => (Raise e, s'')
               end
           end.

Definition get {A} (f : State -> A) : M A := fun s => (Ok (f s), s).

Definition modify (f : State -> State) : M unit := fun s => (Ok tt, f s).

Definition when (b : bool) (m : M unit) : M unit := if b then m else ret tt.

(** [self.logger.<level>(msg)]. *)
Definition logger (lvl : Level) (msg : string) : M unit :=
  modify (fun s => set_log ((log s ++ [(lvl, msg)])%list) s).

(** [time.time()]. *)
Definition read_time : M float :=
  fun s => (Ok (time_time w (clock s)), set_clock (S (clock s)) s).

(** [datetime.now()]. *)
Definition read_now : M Py.datetime :=
  fun s => (Ok (datetime_now w (clock s)), set_clock (S (clock s)) s).

(** A call of a method of [self.translator]. *)
Definition call_translator {A} (f : World -> nat -> B -> Res A * B * nat) : M A :=
  fun s => match f w (clock s) (translator s) with
           | (r, t', k) => (r, set_clock (clock s + k) (set_translator t' s))
           end.

Definition update_statistics (f : Statistics -> Statistics) : M unit :=
  modify (fun s => set_statistics (f (statistics s)) s).

(** *** Configuration *)

(** Modelled from the spec: [ConfigManager.save_config] of
    [utils/config.py], which is not among the sources: it serialises the
    full policy to the store, or raises. *)
Definition save_config (c : Config) : M unit :=
  match save_config_error w c with
  | Some e => raise e
  | None => modify (set_config_store (Some c))
  end.

Definition save_configuration : M unit :=
  try_except
    (c <- get config ;;
     save_config c ;;;
     logger INFO "Automation configuration saved")
    (fun e => logger ERROR ("Error saving configuration: " +:+ e)).

(** [self.config.get('watch_folders', [])]. *)
Definition get_watch_folders (c : Config) : list WatchEntry :=
  default [] (watch_folders c).

(** [self.config.get('import_rules', {})]. *)
Definition get_import_rules (c : Config) : gmap string ImportRule :=
  default ∅ (import_rules c).

(** *** Watch folders and monitoring *)

Definition _start_folder_monitoring (watch_entry : WatchEntry) : M unit :=
  let folder_path := we_path watch_entry in
  let category := we_category watch_entry in
  if negb (path_exists w folder_path) then
    logger ERROR ("Cannot monitor non-existent folder: " +:+ folder_path)
  else
    try_except
      (match observer_error w folder_path with
       | Some e => raise e
       | None => ret tt
       end ;;;
       modify (fun s => set_observers (<[folder_path := category]> (observers s)) s) ;;;
       logger INFO ("Started monitoring: " +:+ folder_path +:+ " (category: "
                    +:+ category +:+ ")"))
      (fun e => logger ERROR ("Error starting monitoring for " +:+ folder_path
                              +:+ ": " +:+ e)).

Definition add_watch_folder (folder_path category : string) (enabled : bool) : M bool :=
  if negb (path_exists w folder_path) then
    logger WARNING ("Watch folder does not exist: " +:+ folder_path) ;;;
    ret false
  else
    now <- read_now ;;
    let watch_entry :=
      mkWatchEntry (abspath w folder_path) category (Some enabled) (Py.isoformat now) in
    c <- get config ;;
    let existing_folders := we_path <$> get_watch_folders c in
    if negb (Py.str_in (we_path watch_entry) existing_folders) then
      modify (set_config
                (mkConfig (Some ((get_watch_folders c ++ [watch_entry])%list))
                   (import_rules c) (quality_checks c))) ;;;
      save_configuration ;;;
      logger INFO ("Added watch folder: " +:+ folder_path +:+ " (category: "
                   +:+ category +:+ ")") ;;;
      monitoring <- get is_monitoring ;;
      when monitoring (_start_folder_monitoring watch_entry) ;;;
      ret true
    else
      logger WARNING ("Folder already being monitored: " +:+ folder_path) ;;;
      ret false.

Definition remove_watch_folder (folder_path : string) : M unit :=
  let abs_path := abspath w folder_path in
  c <- get config ;;
  modify (set_config
            (mkConfig
               (Some (filter (fun e => we_path e ≠ abs_path) (get_watch_folders c)))
               (import_rules c) (quality_checks c))) ;;;
  save_configuration ;;;
  obs <- get observers ;;
  match obs !! abs_path with
  | Some _ =>
      modify (fun s => set_observers (delete abs_path (observers s)) s) ;;;
      logger INFO ("Removed watch folder: " +:+ folder_path)
  | None => ret tt
  end.

Fixpoint start_all (l : list WatchEntry) : M unit :=
  match l with
  | [] => ret tt
  | watch_entry :: r =>
      when (default true (we_enabled watch_entry)) (_start_folder_monitoring watch_entry) ;;;
      start_all r
  end.

Definition start_monitoring : M bool :=
  if negb (watchdog_available w) then
    logger ERROR "File monitoring not available - watchdog package not installed" ;;;
    ret false
  else
    monitoring <- get is_monitoring ;;
    if monitoring then
      logger WARNING "Monitoring is already running" ;;;
      ret true
    else
      now <- read_now ;;
      update_statistics (fun st =>
        mkStatistics (total_processed st) (successful_imports st) (failed_imports st)
          (Some now) (last_activity st) (files_per_category st) (processing_times st)) ;;;
      c <- get config ;;
      start_all (get_watch_folders c) ;;;
      modify (set_is_monitoring true) ;;;
      obs <- get observers ;;
      logger INFO ("Started monitoring " +:+ Py.str_int (Z.of_nat (size obs)) +:+ " folders") ;;;
      ret true.

Definition stop_monitoring : M unit :=
  monitoring <- get is_monitoring ;;
  if negb monitoring then
    logger WARNING "Monitoring is not running"
  else
    modify (set_observers ∅) ;;;
    modify (set_is_monitoring false) ;;;
    logger INFO "Stopped all monitoring".

(** *** Single-file processing *)

Definition _perform_quality_checks (file_path : string) : M bool :=
  c <- get config ;;
  let quality_config := quality_checks c in
  if negb (default true (quality_config ≫= enabled)) then ret true
  else if negb (path_exists w file_path) then
    logger ERROR ("File does not exist: " +:+ file_path) ;;;
    ret false
  else
    let file_size := getsize w file_path in
    let max_size := default 100 (quality_config ≫= max_file_size_mb) * 1024 * 1024 in
    let min_size := default 1024 (quality_config ≫= min_file_size_bytes) in
    if max_size <? file_size then
      logger ERROR ("File too large: " +:+ file_path +:+ " (" +:+ Py.str_int file_size
                    +:+ " bytes > " +:+ Py.str_int max_size +:+ " bytes)") ;;;
      ret false
    else if file_size <? min_size then
      logger ERROR ("File too small: " +:+ file_path +:+ " (" +:+ Py.str_int file_size
                    +:+ " bytes < " +:+ Py.str_int min_size +:+ " bytes)") ;;;
      ret false
    else
      let allowed := default [] (quality_config ≫= allowed_extensions) in
      let file_ext := Py.lower (Py.splitext_ext file_path) in
      if (negb (bool_decide (allowed = [])) && negb (Py.str_in file_ext allowed))%bool then
        logger WARNING ("File extension not in allowed list: " +:+ file_ext) ;;;
        ret false
      else
        v <- call_translator (fun w k t => validate_file w k t file_path) ;;
        let '(is_valid, error_message) := v in
        if negb is_valid then
          logger ERROR ("File validation failed: " +:+ error_message) ;;;
          ret false
        else ret true.

Definition _matches_file_patterns (file_path : string) (patterns : list string) : bool :=
  match patterns with
  | [] => true
  | _ =>
      let file_name := Py.lower (Py.basename file_path) in
      existsb (fun pattern => fnmatch w file_name (Py.lower pattern)) patterns
  end.

(** Truth value of an import rule: an empty dictionary is falsy. *)
Definition rule_truthy (r : ImportRule) : bool :=
  (bool_decide (is_Some (destination r)) || bool_decide (is_Some (translator_options r))
   || bool_decide (is_Some (file_patterns r)) || bool_decide (is_Some (auto_import r)))%bool.

Definition add_failed_import (st : Statistics) : Statistics :=
  mkStatistics (total_processed st) (successful_imports st) (failed_imports st + 1)
    (start_time st) (last_activity st) (files_per_category st) (processing_times st).

Definition add_successful_import (st : Statistics) : Statistics :=
  mkStatistics (total_processed st) (successful_imports st + 1) (failed_imports st)
    (start_time st) (last_activity st) (files_per_category st) (processing_times st).

(** The three updates under [# Update statistics]. *)
Definition count_processed (category : string) : M unit :=
  update_statistics (fun st =>
    mkStatistics (total_processed st + 1) (successful_imports st) (failed_imports st)
      (start_time st) (last_activity st) (files_per_category st) (processing_times st)) ;;;
  now <- read_now ;;
  update_statistics (fun st =>
    mkStatistics (total_processed st) (successful_imports st) (failed_imports st)
      (start_time st) (Some now) (files_per_category st) (processing_times st)) ;;;
  update_statistics (fun st =>
    mkStatistics (total_processed st) (successful_imports st) (failed_imports st)
      (start_time st) (last_activity st)
      (dict_set category (default 0 (dict_get category (files_per_category st)) + 1)
         (files_per_category st))
      (processing_times st)).

(** [# Configure translator] and [# Execute import], up to [return success]. *)
Definition execute_import (file_path : string) (rules : ImportRule) : M bool :=
  let options := default [] (translator_options rules) in
  when (negb (bool_decide (options = [])))
       (call_translator (fun w k t => set_options w k t options)) ;;;
  let dest := default "/Game/ImportedAssets/" (destination rules) in
  success <- call_translator (fun w k t => import_file w k t file_path dest) ;;
  (if success : bool then
     update_statistics add_successful_import ;;;
     logger INFO ("Successfully processed: " +:+ file_path +:+ " -> " +:+ dest)
   else
     update_statistics add_failed_import ;;;
     logger ERROR ("Failed to process: " +:+ file_path)) ;;;
  ret success.

(** The body of [try] in [process_single_file]. *)
Definition process_body (file_path category : string) : M bool :=
  count_processed category ;;;
  c <- get config ;;
  match get_import_rules c !! category with
  | Some rules =>
      if negb (rule_truthy rules) then
        logger WARNING ("No import rules found for category: " +:+ category) ;;;
        ret false
      else if negb (default true (auto_import rules)) then
        logger INFO ("Auto-import disabled for category: " +:+ category) ;;;
        ret false
      else
        ok <- _perform_quality_checks file_path ;;
        if negb ok then
          update_statistics add_failed_import ;;;
          ret false
        else if negb (_matches_file_patterns file_path (default [] (file_patterns rules))) then
          logger INFO ("File does not match patterns for category " +:+ category
                       +:+ ": " +:+ file_path) ;;;
          ret false
        else execute_import file_path rules
  | None =>
      logger WARNING ("No import rules found for category: " +:+ category) ;;;
      ret false
  end.

(** The [finally] block: record the processing time, keep the last 100. *)
Definition record_processing_time (start : float) : M unit :=
  t <- read_time ;;
  let processing_time := PrimFloat.sub t start in
  update_statistics (fun st =>
    mkStatistics (total_processed st) (successful_imports st) (failed_imports st)
      (start_time st) (last_activity st) (files_per_category st)
      ((processing_times st ++ [processing_time])%list)) ;;;
  update_statistics (fun st =>
    if Nat.ltb 100 (length (processing_times st)) then
      mkStatistics (total_processed st) (successful_imports st) (failed_imports st)
        (start_time st) (last_activity st) (files_per_category st)
        (Py.last_n 100 (processing_times st))
    else st).

(** The [except] clause. *)
Definition count_exception (file_path e : string) : M bool :=
  update_statistics add_failed_import ;;;
  logger ERROR ("Exception processing " +:+ file_path +:+ ": " +:+ e) ;;;
  ret false.

Definition process_single_file (file_path category event_type : string) : M bool :=
  start <- read_time ;;
  try_finally
    (try_except (process_body file_path category) (count_exception file_path))
    (record_processing_time start).

(** *** Batch import *)

Definition record_success (file_path dest : string) (r : BatchResults) : BatchResults :=
  mkBatchResults (total_files r) (successful r + 1) (failed r) (batch_start_time r)
    ((details r ++ [mkDetail file_path "success" (Some dest) None])%list)
    (end_time r) (duration_seconds r) (batch_success_rate r).

Definition record_failure (file_path status error : string) (r : BatchResults) : BatchResults :=
  mkBatchResults (total_files r) (successful r) (failed r + 1) (batch_start_time r)
    ((details r ++ [mkDetail file_path status None (Some error)])%list)
    (end_time r) (duration_seconds r) (batch_success_rate r).

(** [# Progress logging] for the file of index [i] among [n]. *)
Definition log_progress (i n : Z) : M unit :=
  when (((i + 1) mod 10 =? 0) || (i + 1 =? n))%bool
    (let progress :=
       PrimFloat.mul (PrimFloat.div (Py.float_of_Z (i + 1)) (Py.float_of_Z n))
         (Py.float_of_Z 100) in
     logger INFO ("Batch import progress: " +:+ Py.format_f 1 progress +:+ "% ("
                  +:+ Py.str_int (i + 1) +:+ "/" +:+ Py.str_int n +:+ ")")).

(** One iteration of the loop, for the file of index [i] among [n]. *)
Definition batch_step (destination_path : string) (n i : Z) (file_path : string)
    (results : BatchResults) : M BatchResults :=
  try_except
    (success <- call_translator (fun w k t => import_file w k t file_path destination_path) ;;
     let results' :=
       if success : bool then record_success file_path destination_path results
       else record_failure file_path "failed" "Import failed" results in
     log_progress i n ;;;
     ret results')
    (fun e => ret (record_failure file_path "error" e results)).

Fixpoint batch_loop (destination_path : string) (n i : Z) (file_paths : list string)
    (results : BatchResults) : M BatchResults :=
  match file_paths with
  | [] => ret results
  | file_path :: rest =>
      results' <- batch_step destination_path n i file_path results ;;
      batch_loop destination_path n (i + 1) rest results'
  end.

(** [(successful / total) * 100 if total > 0 else 0]. *)
Definition rate (good total : Z) : PyNum :=
  if 0 <? total then
    PyFloat (PrimFloat.mul (PrimFloat.div (Py.float_of_Z good) (Py.float_of_Z total))
               (Py.float_of_Z 100))
  else PyInt 0.

Definition batch_import_files (file_paths : list string) (destination_path category : string)
    : M BatchResults :=
  start <- read_time ;;
  now <- read_now ;;
  let n := Z.of_nat (length file_paths) in
  let results := mkBatchResults n 0 0 (Py.isoformat now) [] None None None in
  logger INFO ("Starting batch import of " +:+ Py.str_int n +:+ " files") ;;;
  results <- batch_loop destination_path n 0 file_paths results ;;
  now' <- read_now ;;
  t <- read_time ;;
  let sr := rate (successful results) (total_files results) in
  let results :=
    mkBatchResults (total_files results) (successful results) (failed results)
      (batch_start_time results) (details results) (Some (Py.isoformat now'))
      (Some (PrimFloat.sub t start)) (Some sr) in
  logger INFO ("Batch import completed: " +:+ Py.str_int (successful results) +:+ "/"
               +:+ Py.str_int (total_files results) +:+ " successful ("
               +:+ format_num 1 sr +:+ "%)") ;;;
  ret results.

(** *** Statistics and report *)

(** The dictionary [get_statistics] builds from the statistics [st], the
    uptime, the monitoring flag and the configuration. *)
Definition derived_statistics (st : Statistics) (up : option Py.timedelta)
    (monitoring : bool) (c : Config) : StatsView :=
  let times := processing_times st in
  mkStatsView st
    (match times with
     | [] => None
     | _ => Some (PrimFloat.div (Py.sum_floats times)
                    (Py.float_of_Z (Z.of_nat (length times))))
     end)
    (match times with [] => None | x :: r => Some (Py.min_floats x r) end)
    (match times with [] => None | x :: r => Some (Py.max_floats x r) end)
    (rate (successful_imports st) (total_processed st)) up monitoring
    (Z.of_nat (length (get_watch_folders c)))
    (Z.of_nat (size (get_import_rules c))).

Definition get_statistics : M StatsView :=
  st <- get statistics ;;
  up <- match start_time st with
        | Some t0 => now <- read_now ;; ret (Some (Py.datetime_sub now t0))
        | None => ret None
        end ;;
  monitoring <- get is_monitoring ;;
  c <- get config ;;
  ret (derived_statistics st up monitoring c).

Definition reset_statistics : M unit :=
  monitoring <- get is_monitoring ;;
  t0 <- (if monitoring : bool then now <- read_now ;; ret (Some now) else ret None) ;;
  modify (set_statistics (mkStatistics 0 0 0 t0 None [] [])) ;;;
  logger INFO "Statistics reset".

Definition report_lines (v : StatsView) (generated : Py.datetime) (folders : list WatchEntry)
    : list string :=
  ([ Py.repeat_string "=" 60;
     "INTERCHANGE AUTOMATION REPORT";
     Py.repeat_string "=" 60;
     "Generated: " +:+ Py.isoformat generated;
     "";
     "SYSTEM STATUS:";
     "  Monitoring Active: " +:+ (if monitoring_enabled v then "Yes" else "No");
     "  Watched Folders: " +:+ Py.str_int (watched_folders v);
     "  Import Rules: " +:+ Py.str_int (import_rules_count v) ]
   ++ match uptime v with
      | Some u => [ "  Uptime: " +:+ Py.str_timedelta u ]
      | None => []
      end
   ++ [ "";
        "PROCESSING STATISTICS:";
        "  Total Processed: " +:+ Py.str_int (total_processed (stats v));
        "  Successful: " +:+ Py.str_int (successful_imports (stats v));
        "  Failed: " +:+ Py.str_int (failed_imports (stats v));
        "  Success Rate: " +:+ format_num 1 (success_rate v) +:+ "%";
        "" ]
   ++ match average_processing_time v, min_processing_time v, max_processing_time v with
      | Some a, Some mn, Some mx =>
          if Py.float_truthy a then
            [ "PERFORMANCE METRICS:";
              "  Average Processing Time: " +:+ Py.format_f 3 a +:+ "s";
              "  Min Processing Time: " +:+ Py.format_f 3 mn +:+ "s";
              "  Max Processing Time: " +:+ Py.format_f 3 mx +:+ "s";
              "" ]
          else []
      | _, _, _ => []
      end
   ++ match files_per_category (stats v) with
      | [] => []
      | cats =>
          [ "FILES BY CATEGORY:" ]
          ++ map (fun '(category, count) => "  " +:+ category +:+ ": " +:+ Py.str_int count) cats
          ++ [ "" ]
      end
   ++ [ "CONFIGURATION:" ]
   ++ map (fun folder =>
             "  " +:+ we_path folder +:+ " (" +:+ we_category folder +:+ ") - "
             +:+ (if default true (we_enabled folder) then "Enabled" else "Disabled"))
        folders
   ++ [ Py.repeat_string "=" 60 ])%list.

(** [open(output_file, 'w').write(content)]. *)
Definition write_file (path content : string) : M unit :=
  match write_error w path with
  | Some e => raise e
  | None => modify (fun s => set_written ((written s ++ [(path, content)])%list) s)
  end.

Definition generate_report (output_file : option string) : M string :=
  v <- get_statistics ;;
  now <- read_now ;;
  c <- get config ;;
  let report_content := Py.join (String "010" "") (report_lines v now (get_watch_folders c)) in
  match output_file with
  | Some f =>
      when (negb (String.eqb f ""))
        (try_except
           (write_file f report_content ;;;
            logger INFO ("Report saved to: " +:+ f))
           (fun e => logger ERROR ("Error saving report: " +:+ e)))
  | None => ret tt
  end ;;;
  ret report_content.

(** ** [FileEventHandler] *)

(** An entry of [processing_queue]. *)
Record QueueItem := mkQueueItem {
  q_path : string;
  q_event_type : string;
  q_timestamp : Py.datetime;
  q_category : string
}.

(** A handler: its category, its queue, and the threads it started that
    still sleep before running [_process_queue]. *)
Record FileEventHandler := mkHandler {
  h_category : string;
  processing_queue : list QueueItem;
  sleeping : nat
}.

(** A watchdog event: [is_directory] and [src_path]. *)
Record FsEvent := mkFsEvent { is_directory : bool; src_path : string }.

(** The body of [_queue_file_for_processing], run under [processing_lock]. *)
Definition _queue_file_for_processing (h : FileEventHandler) (file_path event_type : string)
    : M FileEventHandler :=
  if negb (Py.str_in file_path (q_path <$> processing_queue h)) then
    now <- read_now ;;
    logger INFO ("Queued for processing: " +:+ file_path +:+ " (" +:+ event_type +:+ ")") ;;;
    ret (mkHandler (h_category h)
           ((processing_queue h ++ [mkQueueItem file_path event_type now (h_category h)])%list)
           (S (sleeping h)))
  else ret h.

Definition on_created (h : FileEventHandler) (event : FsEvent) : M FileEventHandler :=
  if negb (is_directory event) then _queue_file_for_processing h (src_path event) "created"
  else ret h.

Definition on_modified (h : FileEventHandler) (event : FsEvent) : M FileEventHandler :=
  if negb (is_directory event) then _queue_file_for_processing h (src_path event) "modified"
  else ret h.

(** The loop of [_process_queue] over the drained items. *)
Fixpoint process_items (items : list QueueItem) : M unit :=
  match items with
  | [] => ret tt
  | item :: rest =>
      try_except
        (process_single_file (q_path item) (q_category item) (q_event_type item) ;;; ret tt)
        (fun e => logger ERROR ("Error processing " +:+ q_path item +:+ ": " +:+ e)) ;;;
      process_items rest
  end.

(** [_process_queue] once its thread has slept: under the lock the queue is
    copied and cleared, then the copy is processed. *)
Definition _process_queue (h : FileEventHandler) : M FileEventHandler :=
  match processing_queue h with
  | [] => ret (mkHandler (h_category h) [] (pred (sleeping h)))
  | items_to_process =>
      process_items items_to_process ;;;
      ret (mkHandler (h_category h) [] (pred (sleeping h)))
  end.

(** What can happen to a handler: the observer delivers an event, or one
    of the sleeping threads wakes up. *)
Inductive HandlerEvent :=
  | Created (event : FsEvent)
  | Modified (event : FsEvent)
  | ThreadWakes.

Definition handle (h : FileEventHandler) (ev : HandlerEvent) : M FileEventHandler :=
  match ev with
  | Created event => on_created h event
  | Modified event => on_modified h event
  | ThreadWakes => if Nat.eqb (sleeping h) 0 then ret h else _process_queue h
  end.

Fixpoint handle_all (h : FileEventHandler) (evs : list HandlerEvent) : M FileEventHandler :=
  match evs with
  | [] => ret h
  | ev :: rest => h' <- handle h ev ;; handle_all h' rest
  end.

End Manager.

(** ** A sample environment *)

Module Sample.

(** A shell-style matcher with the wildcards [*] and [?], standing for
    [fnmatch.fnmatch] in the sample environment. *)
Fixpoint glob (p : list ascii) : string -> bool :=
  match p with
  | [] => fun s => match s with EmptyString => true | _ => false end
  | c :: p' =>
      if Ascii.eqb c "*" then
        fix star (s : string) : bool :=
          (glob p' s || match s with EmptyString => false | String _ s' => star s' end)%bool
      else if Ascii.eqb c "?" then
        fun s => match s with EmptyString => false | String _ s' => glob p' s' end
      else
        fun s => match s with
                 | EmptyString => false
                 | String d s' => (Ascii.eqb c d && glob p' s')%bool
                 end
  end.

(** Sizes of the files of the sample file system; other paths do not exist. *)
Definition files : list (string * Z) :=
  [ ("/watch", 4096);
    ("/in/hero_character.foo", 2048);
    ("/in/prop_barrel.foo", 2048);
    ("/in/empty_character.foo", 0);
    ("/in/huge_character.foo", 200000000);
    ("/in/mid_character.foo", 100000001);
    ("/in/a.foo", 2048); ("/in/b.foo", 2048); ("/in/c.foo", 2048);
    ("/in/d.bar", 2048) ].

(** Clock reading [n]: [n] seconds, and [n] microseconds past midnight. *)
Definition world : World :=
  mkWorld
    (fun p => bool_decide (is_Some (dict_get p files)))
    (fun p => default 0 (dict_get p files))
    (fun p => p)
    (fun name pat => glob (list_ascii_of_string pat) name)
    (fun n => Py.float_of_Z (Z.of_nat n))
    (fun n => Py.mk_datetime 2024 3 1 0 0 0 (Z.of_nat n))
    true
    (fun _ => None)
    (fun _ => None)
    (fun _ => None).

(** The default rule of the category [characters]. *)
Definition characters : ImportRule :=
  mkImportRule (Some "/Game/Characters/")
    (Some [("EnableDetailedLogging", "true"); ("ValidateInputFiles", "true")])
    (Some ["*character*"; "*char*"]) (Some true).

(** The [quality_checks] of the default configuration. *)
Definition quality : QualityChecks :=
  mkQualityChecks (Some true) (Some 100) (Some 1024) (Some [".foo"; ".bar"]).

Definition config0 : Config :=
  mkConfig (Some []) (Some {[ "characters" := characters ]}) (Some quality).

Definition statistics0 : Statistics := mkStatistics 0 0 0 None None [] [].

(** A fresh manager outside the engine: the translator has no native object. *)
Definition state0 : @State Translator.CustomFooTranslator :=
  mkState config0 statistics0 false ∅ (Translator.new None) 0 [] None [].

End Sample.

(** A translator that raises on [/in/b.foo], refuses [.bar] files and
    imports everything else. *)
Definition flaky_backend : Backend unit := {|
  validate_file := fun _ _ t _ => (Ok (true, ""), t, 0%nat);
  set_options := fun _ _ t _ => (Ok tt, t, 0%nat);
  import_file := fun _ _ t file_path _ =>
    if String.eqb file_path "/in/b.foo" then (Raise "disk error", t, 0%nat)
    else (Ok (negb (Py.endswith ".bar" file_path)), t, 0%nat)
|}.

Definition flaky_state : @State unit :=
  mkState Sample.config0 Sample.statistics0 false ∅ tt 0 [] None [].

(** ** Callers of the manager and sequences of its calls *)

(** A call on the watch folders or on the monitoring of a manager. *)
Inductive FolderOp :=
  | AddFolder (folder_path category : string) (enabled : bool)
  | RemoveFolder (folder_path : string)
  | StartMonitoring
  | StopMonitoring.

Section Callers.

Context {B : Type} `{Backend B}.
Variable w : World.

Notation "x <- m ;; k" := (bind m (fun x => k))
  (at level 63, m at next level, right associativity).
Notation "m ;;; k" := (bind m (fun _ => k))
  (at level 63, right associativity).

(** The loop of [InterchangePythonAPI.start_monitoring] in [__init__.py]:
    [add_watch_folder(folder)] with the default category and flag. *)
Fixpoint add_folders (watch_folders : list string) : @M B unit :=
  match watch_folders with
  | [] => ret tt
  | folder :: rest =>
      add_watch_folder w folder "default" true ;;;
      add_folders rest
  end.

(** [InterchangePythonAPI.start_monitoring(watch_folders)]. *)
Definition api_start_monitoring (watch_folders : list string) : @M B unit :=
  add_folders watch_folders ;;;
  start_monitoring w ;;;
  ret tt.

Definition run_op (op : FolderOp) : @M B unit :=
  match op with
  | AddFolder folder_path category enabled =>
      add_watch_folder w folder_path category enabled ;;; ret tt
  | RemoveFolder folder_path => remove_watch_folder w folder_path
  | StartMonitoring => start_monitoring w ;;; ret tt
  | StopMonitoring => stop_monitoring
  end.

Fixpoint run_ops (ops : list FolderOp) : @M B unit :=
  match ops with
  | [] => ret tt
  | op :: rest => run_op op ;;; run_ops rest
  end.

End Callers.

(** The absolute paths a configuration watches. *)
Definition watched_paths (c : Config) : list string := we_path <$> get_watch_folders c.

(** [start_monitoring] gives the folder of this entry an observer: the
    entry is enabled, its folder exists and the observer starts. *)
Definition startable (w : World) (e : WatchEntry) : bool :=
  (default true (we_enabled e) && path_exists w (we_path e)
   && bool_decide (observer_error w (we_path e) = None))%bool.

(** The observers after [start_monitoring] has gone through the entries
    [l], from the observers [o]. *)
Definition observe_all (w : World) (l : list WatchEntry) (o : gmap string string)
    : gmap string string :=
  foldl (fun o e => if startable w e then <[we_path e := we_category e]> o else o) o l.

(** The string has no ['/']. *)
Fixpoint no_slash (x : string) : bool :=
  match x with
  | EmptyString => true
  | String c r => (negb (Ascii.eqb c "/") && no_slash r)%bool
  end.

(** The sum of the counts of [files_per_category]. *)
Definition category_total (d : odict Z) : Z := foldr (fun kv acc => kv.2 + acc) 0 d.

(** What the counters of a manager satisfy from its creation on: every
    processed file is counted under one category, successes and failures
    are processed files, and the history holds at most 100 samples. *)
Definition statistics_ok (st : Statistics) : Prop :=
  total_processed st = category_total (files_per_category st) /\
  0 <= successful_imports st /\ 0 <= failed_imports st /\
  successful_imports st + failed_imports st <= total_processed st /\
  (length (processing_times st) <= 100)%nat.

(** The part of a manager a batch import has no business with. *)
Definition same_manager {B} (s s' : @State B) : Prop :=
  statistics s' = statistics s /\ config s' = config s /\
  is_monitoring s' = is_monitoring s /\ observers s' = observers s /\
  config_store s' = config_store s /\ written s' = written s /\
  (clock s <= clock s')%nat.

(** What holds of a handler and its threads at any time: its entries
    carry its category, and every entry has a thread of its own still
    asleep. *)
Definition threads_cover (category : string) (h : FileEventHandler) : Prop :=
  h_category h = category /\
  Forall (fun item => q_category item = category) (processing_queue h) /\
  (length (processing_queue h) <= sleeping h)%nat.

(** The check of the translator wrapper without a native translator
    (development mode): the file exists and its name, in lower case, ends
    in [.foo]. *)
Definition mock_accepts (w : World) (file_path : string) : bool :=
  (path_exists w file_path && Py.endswith ".foo" (Py.lower file_path))%bool.


(** ** [core/translators.py]: [TranslatorManager] *)

Module TranslatorManager.

(** [unreal.PythonTranslatorManager], when the engine is there. *)
Record Unreal := mkUnreal {
  find_best_translator_for_file : string -> Res string
}.

(** [find_best_translator]; [unreal] is [None] when [UNREAL_AVAILABLE] is
    false. An empty answer of the engine is falsy. *)
Definition find_best_translator (unreal : option Unreal) (file_path : string) : option string :=
  match unreal with
  | None =>
      if Py.endswith ".foo" (Py.lower file_path) then Some "CustomFooTranslator" else None
  | Some u =>
      match find_best_translator_for_file u file_path with
      | Ok result => if String.eqb result "" then None else Some result
      | Raise _ => None
      end
  end.

End TranslatorManager.

(** ** [__init__.py]: [APIConfig] *)

Module APIConfig.

(** Upper-casing of ASCII text: what [str.upper()] does to a string of
    ASCII characters. *)
Definition upper_ascii (c : ascii) : ascii :=
  let n := nat_of_ascii c in
  if (Nat.leb 97 n && Nat.leb n 122)%bool then ascii_of_nat (n - 32) else c.

Fixpoint upper (s : string) : string :=
  match s with
  | EmptyString => EmptyString
  | String c r => String (upper_ascii c) (upper r)
  end.

(** The values of the settings; [update_config] takes any value. *)
Inductive PyVal :=
  | VStr (x : string)
  | VInt (n : Z)
  | VFloat (x : float)
  | VBool (b : bool)
  | VList (l : list string).

(** The class attributes in upper case, as the class body defines them.
    The other attributes of the class (its methods and the names every
    class has) all have a lower-case ASCII letter in their names, so that
    no [key.upper()] names one of them. *)
Definition initial : gmap string PyVal :=
  <["DEFAULT_DESTINATION_PATH" := VStr "/Game/ImportedAssets/"]>
  (<["DEFAULT_BATCH_SIZE" := VInt 10]>
  (<["DEFAULT_TIMEOUT" := VFloat 30%float]>
  (<["ENABLE_DETAILED_LOGGING" := VBool true]>
  (<["ENABLE_STATISTICS" := VBool true]>
  (<["MAX_FILE_SIZE_MB" := VInt 500]>
  (<["WARN_FILE_SIZE_MB" := VInt 100]>
  (<["SUPPORTED_EXTENSIONS" := VList [".foo"; ".bar"; ".custom"]]> ∅))))))).

Definition hasattr (cls : gmap string PyVal) (name : string) : bool :=
  bool_decide (is_Some (cls !! name)).

Section StrUpper.

(** [str.upper] as Python has it, for keys of any script. *)
Variable str_upper : string -> string.

(** [update_config]: [kwargs] holds the keyword arguments in their order. *)
Definition update_config (cls : gmap string PyVal) (kwargs : list (string * PyVal))
    : gmap string PyVal :=
  foldl (fun cls kv =>
           if hasattr cls (str_upper kv.1) then <[str_upper kv.1 := kv.2]> cls else cls)
        cls kwargs.

(** The values given for the attribute [name] by [kwargs], in their order. *)
Definition given (name : string) (kwargs : list (string * PyVal)) : list PyVal :=
  (filter (fun kv => str_upper kv.1 = name) kwargs).*2.

End StrUpper.

(** [get_config()]; [None] stands for the [AttributeError] of a missing
    attribute. *)
Definition get_config (cls : gmap string PyVal) : option (odict PyVal) :=
  v1 ← cls !! "DEFAULT_DESTINATION_PATH";
  v2 ← cls !! "DEFAULT_BATCH_SIZE";
  v3 ← cls !! "DEFAULT_TIMEOUT";
  v4 ← cls !! "ENABLE_DETAILED_LOGGING";
  v5 ← cls !! "ENABLE_STATISTICS";
  v6 ← cls !! "MAX_FILE_SIZE_MB";
  v7 ← cls !! "WARN_FILE_SIZE_MB";
  v8 ← cls !! "SUPPORTED_EXTENSIONS";
  Some [ ("default_destination_path", v1);
         ("default_batch_size", v2);
         ("default_timeout", v3);
         ("enable_detailed_logging", v4);
         ("enable_statistics", v5);
         ("max_file_size_mb", v6);
         ("warn_file_size_mb", v7);
         ("supported_extensions", v8) ].

End APIConfig.

(** ** Sample managers and keys *)

(** [str.upper] on ASCII keys and on one key written with the letter
    U+017F (long s), which Python upper-cases to [S]. *)
Definition upper_long_s (key : string) : string :=
  if String.eqb key "max_file_ſize_mb" then "MAX_FILE_SIZE_MB" else APIConfig.upper key.


(** A manager whose monitoring runs. *)
Definition monitoring_state : @State Translator.CustomFooTranslator :=
  set_is_monitoring true Sample.state0.


(** ** Properties *)

(** The call [out] made in state [s] returned [False] after logging one
    error whose text starts with [reason]. *)
Definition rejected_with {B} (reason : string) (s : @State B) (out : Res bool * @State B) : Prop :=
  out.1 = Ok false /\
  exists msg, log out.2 = (log s ++ [(ERROR, msg)])%list /\ Py.startswith reason msg = true.

(** What a call of single-file processing comes to, told from the
    configuration, the file system and the answers of the external
    translator alone: a classification miss, a rejection by the quality
    gate, an import that returns failure, an exception of the translator,
    or an import that succeeds. *)
Inductive Verdict :=
  | Miss
  | GateRejected
  | ImportFailed
  | BackendRaised (e : string)
  | Imported.

(** The answer of the quality gate for a file, when the translator is in
    state [t] and the clock has been read [k] times: the file passes
    (leaving the translator in a new state), is rejected, or the
    validation by the translator raises. *)
Inductive GateAnswer (B : Type) :=
  | GatePass (t : B) (k : nat)
  | GateReject
  | GateRaise (e : string).

Arguments GatePass {B} t k.
Arguments GateReject {B}.
Arguments GateRaise {B} e.

(** The quality gate in the order of its checks: a disabled policy
    passes; then existence, the upper and the lower size bound, the
    allowed extensions, and the validation by the translator. *)
Definition gate_answer {B} `{Backend B} (w : World) (c : Config) (file_path : string)
    (t : B) (k : nat) : GateAnswer B :=
  let q := quality_checks c in
  let allowed := default [] (q ≫= allowed_extensions) in
  if negb (default true (q ≫= enabled)) then GatePass t k
  else if negb (path_exists w file_path) then GateReject
  else if default 100 (q ≫= max_file_size_mb) * 1024 * 1024 <? getsize w file_path
  then GateReject
  else if getsize w file_path <? default 1024 (q ≫= min_file_size_bytes) then GateReject
  else if bool_decide (allowed <> [] /\ Py.lower (Py.splitext_ext file_path) ∉ allowed)
  then GateReject
  else match validate_file w k t file_path with
       | (Ok (true, _), t', j) => GatePass t' (k + j)
       | (Ok (false, _), _, _) => GateReject
       | (Raise e, _, _) => GateRaise e
       end.

(** The name of the file matches the patterns of a rule: there are no
    patterns, or the lower-cased base name matches one of them, lower-cased. *)
Definition name_matches (w : World) (file_path : string) (patterns : list string) : bool :=
  bool_decide (patterns = [] \/
               Exists (fun pattern =>
                         fnmatch w (Py.lower (Py.basename file_path)) (Py.lower pattern) = true)
                      patterns).

(** The verdict on a file of a category for the manager [s]: the steps
    of single-file processing in their order, each decided by the
    configuration, the file system or the translator. The translator is
    first asked after two clock readings of the call. *)
Definition verdict {B} `{Backend B} (w : World) (file_path category : string) (s : @State B)
    : Verdict :=
  match get_import_rules (config s) !! category with
  | None => Miss
  | Some rules =>
      if negb (rule_truthy rules) then Miss
      else if negb (default true (auto_import rules)) then Miss
      else
        match gate_answer w (config s) file_path (translator s) (S (S (clock s))) with
        | GateReject => GateRejected
        | GateRaise e => BackendRaised e
        | GatePass t1 k1 =>
            if negb (name_matches w file_path (default [] (file_patterns rules))) then Miss
            else
              let options := default [] (translator_options rules) in
              let destination := default "/Game/ImportedAssets/" (destination rules) in
              match (if bool_decide (options = []) then (Ok tt, t1, 0%nat)
                     else set_options w k1 t1 options) with
              | (Raise e, _, _) => BackendRaised e
              | (Ok _, t2, j2) =>
                  match import_file w (k1 + j2) t2 file_path destination with
                  | (Ok true, _, _) => Imported
                  | (Ok false, _, _) => ImportFailed
                  | (Raise e, _, _) => BackendRaised e
                  end
              end
        end
  end.




(** What the translator answers to the imports of a batch, file after
    file, from its state [t] and clock reading [k]. *)
Fixpoint import_outcomes {B} `{Backend B} (w : World) (destination_path : string)
    (file_paths : list string) (t : B) (k : nat) : list (Res bool) :=
  match file_paths with
  | [] => []
  | file_path :: rest =>
      match import_file w k t file_path destination_path with
      | (o, t', j) => o :: import_outcomes w destination_path rest t' (k + j)
      end
  end.

(** The detail record of a file whose import had the outcome [o]. *)
Definition detail_of (destination_path file_path : string) (o : Res bool) : Detail :=
  match o with
  | Ok true => mkDetail file_path "success" (Some destination_path) None
  | Ok false => mkDetail file_path "failed" None (Some "Import failed")
  | Raise e => mkDetail file_path "error" None (Some e)
  end.

Definition succeeded (o : Res bool) : bool :=
  match o with Ok true => true | _ => false end.

(** The lines of the report of the manager [s] when the clock has been
    read [k] times: the uptime, if any, comes from reading [k], the
    [Generated:] line from the reading after it. *)
Definition report_of {B} (w : World) (s : @State B) (k : nat) : list string :=
  let up := (fun t0 => Py.datetime_sub (datetime_now w k) t0) <$> start_time (statistics s) in
  let k' := match start_time (statistics s) with Some _ => S k | None => k end in
  report_lines (derived_statistics (statistics s) up (is_monitoring s) (config s))
    (datetime_now w k') (get_watch_folders (config s)).

(** A handler as [__init__] leaves it. *)
Definition new_handler (category : string) : FileEventHandler := mkHandler category [] 0.


(** The paths waiting in the queue of a handler. *)
Definition queued_paths (h : FileEventHandler) : list string :=
  q_path <$> processing_queue h.



Section Properties.

Context {B : Type} `{Backend B}.
Variable w : World.

Implicit Type s : @State B.

Lemma log_app_inv (l : list LogRecord) (a b : LogRecord) :
  (l ++ [a])%list = (l ++ [b])%list -> a = b.
Proof. intros E. apply app_inv_head in E. congruence. Qed.

Lemma log_app_nil (l : list LogRecord) (a : LogRecord) : l <> (l ++ [a])%list.
Proof.
  intros E. apply (f_equal length) in E. rewrite length_app in E. simpl in E. lia.
Qed.

(** C1 (as amended): with the quality policy enabled and an existing file,
    the check rejects the file as too large exactly when its size exceeds
    [max_file_size_mb * 1024 * 1024] bytes, and as too small (a different
    reason) exactly when its size is not above that bound and is below
    [min_file_size_bytes]; with the bounds 100 and 1024 a 0-byte file is
    too small, a 200,000,000-byte file is too large and a 2048-byte file
    is rejected for neither reason. *)
Theorem quality_size_bounds s (file_path : string) :
  default true (quality_checks (config s) ≫= enabled) = true ->
  path_exists w file_path = true ->
  let max_mb := default 100 (quality_checks (config s) ≫= max_file_size_mb) in
  let min_bytes := default 1024 (quality_checks (config s) ≫= min_file_size_bytes) in
  let size := getsize w file_path in
  let out := _perform_quality_checks w file_path s in
  (rejected_with "File too large: " s out <-> max_mb * 1024 * 1024 < size) /\
  (rejected_with "File too small: " s out <->
     size <= max_mb * 1024 * 1024 /\ size < min_bytes) /\
  (max_mb = 100 -> min_bytes = 1024 ->
     (size = 0 -> rejected_with "File too small: " s out) /\
     (size = 200000000 -> rejected_with "File too large: " s out) /\
     (size = 2048 -> ~ rejected_with "File too large: " s out /\
                     ~ rejected_with "File too small: " s out)).
Proof.
  intros Hen Hex max_mb min_bytes size out.
  assert (Hlarge : rejected_with "File too large: " s out <-> max_mb * 1024 * 1024 < size).
  { subst out. unfold _perform_quality_checks, bind, get, rejected_with.
    rewrite Hen, Hex. simpl. fold max_mb min_bytes size.
    destruct (Z.ltb_spec (max_mb * 1024 * 1024) size) as [Hl|Hl]; simpl.
    - split; [intros _; exact Hl|]. intros _. split; [reflexivity|]. eauto.
    - split; [|lia]. intros [Hr (msg & Hlog & Hp)]. exfalso.
      destruct (Z.ltb_spec size min_bytes); simpl in *.
      + apply log_app_inv in Hlog. inversion Hlog; subst. simpl in Hp. discriminate.
      + destruct (_ && _)%bool; simpl in *.
        * apply log_app_inv in Hlog. discriminate.
        * unfold call_translator in *.
          destruct (validate_file _ _ _ _) as [[[[v m]|e] t'] k]; simpl in *;
            try discriminate.
          destruct v; simpl in *; try discriminate.
          apply log_app_inv in Hlog. inversion Hlog; subst. simpl in Hp. discriminate. }
  assert (Hsmall : rejected_with "File too small: " s out <->
                   size <= max_mb * 1024 * 1024 /\ size < min_bytes).
  { subst out. unfold _perform_quality_checks, bind, get, rejected_with.
    rewrite Hen, Hex. simpl. fold max_mb min_bytes size.
    destruct (Z.ltb_spec (max_mb * 1024 * 1024) size) as [Hl|Hl]; simpl.
    - split; [|lia]. intros [_ (msg & Hlog & Hp)]. exfalso.
      apply log_app_inv in Hlog. inversion Hlog; subst. simpl in Hp. discriminate.
    - destruct (Z.ltb_spec size min_bytes) as [Hm|Hm]; simpl.
      + split; [intros _; split; assumption|]. intros _. split; [reflexivity|]. eauto.
      + split; [|lia]. intros [Hr (msg & Hlog & Hp)]. exfalso.
        destruct (_ && _)%bool; simpl in *.
        * apply log_app_inv in Hlog. discriminate.
        * unfold call_translator in *.
          destruct (validate_file _ _ _ _) as [[[[v m]|e] t'] k]; simpl in *;
            try discriminate.
          destruct v; simpl in *; try discriminate.
          apply log_app_inv in Hlog. inversion Hlog; subst. simpl in Hp. discriminate. }
  split; [exact Hlarge|]. split; [exact Hsmall|].
  intros Hmax Hmin.
  split; [intros Hs; apply Hsmall; lia|].
  split; [intros Hs; apply Hlarge; lia|].
  intros Hs. rewrite Hlarge, Hsmall. lia.
Qed.

(** *** Single-file processing *)

Lemma last_n_length {A} (n : nat) (l : list A) : (length (Py.last_n n l) <= n)%nat.
Proof. unfold Py.last_n. rewrite length_drop. lia. Qed.

Lemma last_n_short {A} (n : nat) (l : list A) : (length l <= n)%nat -> Py.last_n n l = l.
Proof.
  intros Hl. unfold Py.last_n. replace (length l - n)%nat with 0%nat by lia. reflexivity.
Qed.

(** The [finally] block never raises: it reads the clock once, appends
    the sample and keeps the last 100. *)
Lemma record_processing_time_spec (start : float) s :
  exists s',
    record_processing_time w start s = (Ok tt, s') /\
    processing_times (statistics s') =
      Py.last_n 100 (processing_times (statistics s)
                     ++ [PrimFloat.sub (time_time w (clock s)) start])%list /\
    total_processed (statistics s') = total_processed (statistics s) /\
    successful_imports (statistics s') = successful_imports (statistics s) /\
    failed_imports (statistics s') = failed_imports (statistics s) /\
    config s' = config s.
Proof.
  unfold record_processing_time, bind, read_time, update_statistics, modify. simpl.
  eexists. split; [reflexivity|]. simpl.
  destruct (Nat.ltb_spec 100
              (length (processing_times (statistics s)
                       ++ [PrimFloat.sub (time_time w (clock s)) start])%list)) as [Hl|Hl];
    simpl; repeat split; try reflexivity.
  symmetry. apply last_n_short. exact Hl.
Qed.

(** Case analysis on the innermost scrutinee of the goal. *)
Ltac case_inner :=
  match goal with
  | |- context [match ?x with _ => _ end] =>
      lazymatch x with
      | context [match _ with _ => _ end] => fail
      | _ => destruct x eqn:?
      end
  end.

Ltac unfold_monad :=
  unfold bind, ret, raise, get, modify, when, logger, update_statistics, try_except,
         call_translator in *; simpl in *.

(** What the [try] block leaves untouched, and the one count it always makes. *)
Lemma process_body_frame (file_path category : string) s :
  let out := process_body w file_path category s in
  processing_times (statistics out.2) = processing_times (statistics s) /\
  total_processed (statistics out.2) = total_processed (statistics s) + 1 /\
  config out.2 = config s /\
  (S (clock s) <= clock out.2)%nat.
Proof.
  unfold process_body, count_processed, _perform_quality_checks, execute_import, read_now.
  unfold_monad.
  repeat (case_inner; simpl in *); repeat split; try reflexivity; try lia.
Qed.

Lemma count_processed_spec (category : string) s :
  exists s1,
    count_processed w category s = (Ok tt, s1) /\
    config s1 = config s /\
    failed_imports (statistics s1) = failed_imports (statistics s) /\
    successful_imports (statistics s1) = successful_imports (statistics s).
Proof.
  unfold count_processed, read_now. unfold_monad. eexists. split; [reflexivity|].
  simpl. auto.
Qed.

Lemma quality_checks_frame (file_path : string) s :
  let out := _perform_quality_checks w file_path s in
  statistics out.2 = statistics s /\ config out.2 = config s.
Proof.
  unfold _perform_quality_checks. unfold_monad.
  repeat (case_inner; simpl in *); split; reflexivity.
Qed.

(** The import counts itself: a success, a failure, or nothing when the
    translator raises. *)
Lemma execute_import_spec (file_path : string) (rules : ImportRule) s :
  match execute_import w file_path rules s with
  | (Ok b, s') =>
      failed_imports (statistics s') =
        failed_imports (statistics s) + (if b then 0 else 1) /\
      successful_imports (statistics s') =
        successful_imports (statistics s) + (if b then 1 else 0)
  | (Raise e, s') => statistics s' = statistics s
  end.
Proof.
  unfold execute_import. unfold_monad.
  repeat (case_inner; simpl in *); try split; try reflexivity; lia.
Qed.

Lemma count_exception_spec (file_path e : string) s :
  exists s',
    count_exception file_path e s = (Ok false, s') /\
    failed_imports (statistics s') = failed_imports (statistics s) + 1 /\
    processing_times (statistics s') = processing_times (statistics s) /\
    total_processed (statistics s') = total_processed (statistics s) /\
    clock s' = clock s.
Proof.
  unfold count_exception. unfold_monad. eexists. split; [reflexivity|]. simpl. auto.
Qed.

(** C9: every call of [process_single_file] returns, and leaves the
    history of processing times equal to the former history followed by
    one new sample (the clock read in [finally] minus the clock read on
    entry), cut to its last 100 entries; so the history never holds more
    than 100 samples, and below that length it grew by exactly one. *)
Theorem processing_time_history s (file_path category event_type : string) :
  exists (b : bool) s' (k : nat),
    process_single_file w file_path category event_type s = (Ok b, s') /\
    (clock s < k)%nat /\
    let sample := PrimFloat.sub (time_time w k) (time_time w (clock s)) in
    processing_times (statistics s') =
      Py.last_n 100 (processing_times (statistics s) ++ [sample])%list /\
    (length (processing_times (statistics s')) <= 100)%nat /\
    ((length (processing_times (statistics s)) < 100)%nat ->
     processing_times (statistics s') = (processing_times (statistics s) ++ [sample])%list).
Proof.
  cbv [process_single_file bind read_time try_finally try_except].
  pose proof (process_body_frame file_path category (set_clock (S (clock s)) s))
    as (Hpt & _ & _ & Hclk).
  destruct (process_body w file_path category (set_clock (S (clock s)) s))
    as [[b|e] s1]; simpl in Hpt, Hclk.
  - destruct (record_processing_time_spec (time_time w (clock s)) s1)
      as (s' & -> & Ht & _).
    exists b, s', (clock s1). split; [reflexivity|]. split; [lia|]. cbv zeta.
    rewrite Ht, Hpt. split; [reflexivity|]. split; [apply last_n_length|].
    intros Hlen. apply last_n_short. rewrite length_app. simpl. lia.
  - destruct (count_exception_spec file_path e s1) as (s2 & -> & _ & Hpt2 & _ & Hc2).
    destruct (record_processing_time_spec (time_time w (clock s)) s2)
      as (s' & -> & Ht & _).
    exists false, s', (clock s1). split; [reflexivity|]. split; [lia|]. cbv zeta.
    rewrite Ht, Hpt2, Hpt, Hc2. split; [reflexivity|]. split; [apply last_n_length|].
    intros Hlen. apply last_n_short. rewrite length_app. simpl. lia.
Qed.

(** The [try] block by cases, in the order of the code. *)
Lemma process_body_cases (file_path category : string) s0 :
  let s1 := (count_processed w category s0).2 in
  let out := process_body w file_path category s0 in
  let skipped := out.1 = Ok false /\ statistics out.2 = statistics s1 in
  match get_import_rules (config s0) !! category with
  | None => skipped
  | Some rules =>
      if negb (rule_truthy rules) then skipped
      else if negb (default true (auto_import rules)) then skipped
      else
        match _perform_quality_checks w file_path s1 with
        | (Ok true, s2) =>
            if negb (_matches_file_patterns w file_path (default [] (file_patterns rules)))
            then skipped
            else out = execute_import w file_path rules s2
        | (Ok false, s2) =>
            out.1 = Ok false /\
            failed_imports (statistics out.2) = failed_imports (statistics s1) + 1
        | (Raise e, s2) => out = (Raise e, s2)
        end
  end.
Proof.
  intros s1 out skipped. subst skipped out s1.
  destruct (count_processed_spec category s0) as (s1 & E1 & Hc & _).
  cbv [process_body bind get]. rewrite E1. cbv [snd]. rewrite Hc.
  destruct (get_import_rules (config s0) !! category) as [rules|]; [|split; reflexivity].
  destruct (rule_truthy rules); cbv [negb]; [|split; reflexivity].
  destruct (default true (auto_import rules)); [|split; reflexivity].
  pose proof (quality_checks_frame file_path s1) as [Hq _]. cbv zeta in Hq.
  destruct (_perform_quality_checks w file_path s1) as [[[|]|e] s2]; cbv [negb snd] in *.
  - destruct (_matches_file_patterns w file_path (default [] (file_patterns rules)));
      [reflexivity|].
    split; [reflexivity|]. simpl. exact Hq.
  - split; [reflexivity|]. simpl. rewrite Hq. reflexivity.
  - reflexivity.
Qed.

(** The call never raises; its result and the failure count follow the
    outcome of the [try] block. *)
Lemma process_single_file_outcome s (file_path category event_type : string) :
  exists (b : bool) s',
    process_single_file w file_path category event_type s = (Ok b, s') /\
    match process_body w file_path category (set_clock (S (clock s)) s) with
    | (Ok b0, s1) =>
        b = b0 /\ failed_imports (statistics s') = failed_imports (statistics s1)
    | (Raise _, s1) =>
        b = false /\ failed_imports (statistics s') = failed_imports (statistics s1) + 1
    end.
Proof.
  cbv [process_single_file bind read_time try_finally try_except].
  destruct (process_body w file_path category (set_clock (S (clock s)) s)) as [[b|e] s1].
  - destruct (record_processing_time_spec (time_time w (clock s)) s1)
      as (s' & -> & _ & _ & _ & Hf & _).
    exists b, s'. auto.
  - destruct (count_exception_spec file_path e s1) as (s2 & -> & Hf2 & _).
    destruct (record_processing_time_spec (time_time w (clock s)) s2)
      as (s' & -> & _ & _ & _ & Hf & _).
    exists false, s'. split; [reflexivity|]. split; [reflexivity|]. congruence.
Qed.

(** *** Statistics reset *)

(** C7: [reset_statistics] zeroes every counter and empties the
    per-category counts, the history of processing times and the last
    activity; the start time becomes the current time when monitoring is
    on and is cleared otherwise, so that [get_statistics] called next
    reports an uptime exactly when monitoring is on. *)
Theorem reset_statistics_clears s :
  exists s',
    reset_statistics w s = (Ok tt, s') /\
    total_processed (statistics s') = 0 /\
    successful_imports (statistics s') = 0 /\
    failed_imports (statistics s') = 0 /\
    files_per_category (statistics s') = [] /\
    processing_times (statistics s') = [] /\
    last_activity (statistics s') = None /\
    start_time (statistics s') =
      (if is_monitoring s then Some (datetime_now w (clock s)) else None) /\
    is_monitoring s' = is_monitoring s /\
    exists v s'',
      get_statistics w s' = (Ok v, s'') /\
      stats v = statistics s' /\
      success_rate v = PyInt 0 /\
      average_processing_time v = None /\
      (uptime v = None <-> is_monitoring s = false).
Proof.
  unfold reset_statistics, get_statistics, read_now. unfold_monad.
  destruct (is_monitoring s) eqn:Em; simpl; eexists; (split; [reflexivity|]); simpl;
    rewrite ?Em; repeat (split; [reflexivity|]);
    eexists; eexists; (split; [reflexivity|]); simpl;
    repeat (split; [reflexivity|]); split; congruence.
Qed.

(** *** Watch folders *)

Lemma save_configuration_frame s :
  exists s',
    save_configuration w s = (Ok tt, s') /\
    config s' = config s /\ is_monitoring s' = is_monitoring s /\
    observers s' = observers s /\ statistics s' = statistics s.
Proof.
  unfold save_configuration, save_config. unfold_monad.
  destruct (save_config_error w (config s)); simpl; eexists; split; try reflexivity;
    simpl; auto.
Qed.

Lemma start_folder_monitoring_frame (watch_entry : WatchEntry) s :
  exists s',
    _start_folder_monitoring w watch_entry s = (Ok tt, s') /\ config s' = config s.
Proof.
  unfold _start_folder_monitoring. unfold_monad.
  destruct (path_exists w (we_path watch_entry)); simpl;
    [destruct (observer_error w (we_path watch_entry)); simpl|];
    eexists; split; try reflexivity; simpl; auto.
Qed.

(** What [add_watch_folder] does for a folder that exists. *)
Lemma add_watch_folder_existing s (folder_path category : string) (en : bool) :
  path_exists w folder_path = true ->
  let abs_path := abspath w folder_path in
  let folders := get_watch_folders (config s) in
  exists s',
    add_watch_folder w folder_path category en s =
      (Ok (negb (Py.str_in abs_path (we_path <$> folders))), s') /\
    config s' =
      (if Py.str_in abs_path (we_path <$> folders) then config s
       else mkConfig
              (Some (folders ++ [mkWatchEntry abs_path category (Some en)
                                   (Py.isoformat (datetime_now w (clock s)))])%list)
              (import_rules (config s)) (quality_checks (config s))) /\
    (Py.str_in abs_path (we_path <$> folders) = true ->
     config_store s' = config_store s /\ observers s' = observers s /\
     is_monitoring s' = is_monitoring s).
Proof.
  intros Hex abs_path folders. unfold add_watch_folder. rewrite Hex.
  cbv [negb bind read_now get]. simpl.
  fold abs_path folders.
  destruct (Py.str_in abs_path (we_path <$> folders)) eqn:Ein; cbv [negb].
  - unfold_monad. eexists. split; [reflexivity|]. simpl. auto.
  - match goal with |- context [save_configuration w ?st] =>
      destruct (save_configuration_frame st) as (s1 & -> & Hc1 & _) end.
    match goal with |- context [set_log ?l s1] => set (s2 := set_log l s1) end.
    assert (Hc2 : config s2 = config s1) by reflexivity.
    destruct (is_monitoring s1); cbv [when ret].
    + match goal with |- context [_start_folder_monitoring w ?e s2] =>
        destruct (start_folder_monitoring_frame e s2) as (s3 & -> & Hc3) end.
      exists s3. split; [reflexivity|]. split; [|discriminate].
      rewrite Hc3, Hc2, Hc1. reflexivity.
    + exists s2. split; [reflexivity|]. split; [|discriminate].
      rewrite Hc2, Hc1. reflexivity.
Qed.

Lemma filter_absent {A} (f : A -> string) (x : string) (l : list A) :
  x ∉ f <$> l -> filter (fun e => f e = x) l = [].
Proof.
  induction l as [|e l IH]; [reflexivity|]. rewrite fmap_cons, not_elem_of_cons.
  intros [Hne Hl]. rewrite filter_cons. destruct (decide (f e = x)); [congruence|].
  apply IH, Hl.
Qed.

(** Among entries with distinct keys, exactly one has a key that occurs. *)
Lemma filter_once {A} (f : A -> string) (x : string) (l : list A) :
  NoDup (f <$> l) -> x ∈ f <$> l ->
  length (filter (fun e => f e = x) l) = 1%nat.
Proof.
  induction l as [|e l IH]; [intros _ Hin; inversion Hin|].
  rewrite fmap_cons, NoDup_cons. intros [Hnotin Hnd] Hin. rewrite filter_cons.
  destruct (decide (f e = x)) as [Heq|Hne].
  - subst x. rewrite filter_absent by exact Hnotin. reflexivity.
  - apply elem_of_cons in Hin as [Hin|Hin]; [congruence|]. apply IH; assumption.
Qed.

(** C8: for a folder that exists, calling [add_watch_folder] twice leaves
    the configuration as the first call left it: the second call returns
    [False] and changes neither the configuration, nor what is persisted,
    nor the observers; and when the watched paths were distinct before,
    they are distinct afterwards, with exactly one entry for the absolute
    path of the folder. *)
Theorem add_watch_folder_idempotent s (folder_path category category' : string)
    (en en' : bool) :
  path_exists w folder_path = true ->
  exists (b : bool) s1 s2,
    add_watch_folder w folder_path category en s = (Ok b, s1) /\
    add_watch_folder w folder_path category' en' s1 = (Ok false, s2) /\
    config s2 = config s1 /\
    config_store s2 = config_store s1 /\
    observers s2 = observers s1 /\
    (NoDup (we_path <$> get_watch_folders (config s)) ->
     NoDup (we_path <$> get_watch_folders (config s2)) /\
     length (filter (fun e => we_path e = abspath w folder_path)
               (get_watch_folders (config s2))) = 1%nat).
Proof.
  intros Hex.
  destruct (add_watch_folder_existing s folder_path category en Hex) as (s1 & E1 & Hc1 & _).
  cbv zeta in *.
  assert (Hin1 : abspath w folder_path ∈ we_path <$> get_watch_folders (config s1)).
  { rewrite Hc1. unfold Py.str_in. case_bool_decide as Hin; [exact Hin|].
    unfold get_watch_folders at 1. simpl. rewrite fmap_app. set_solver. }
  destruct (add_watch_folder_existing s1 folder_path category' en' Hex) as (s2 & E2 & Hc2 & Hf2).
  cbv zeta in *.
  assert (Ein : Py.str_in (abspath w folder_path) (we_path <$> get_watch_folders (config s1))
                = true).
  { unfold Py.str_in. apply bool_decide_eq_true. exact Hin1. }
  rewrite Ein in *. cbv [negb] in E2. destruct (Hf2 eq_refl) as (Hs & Ho & _).
  eexists _, s1, s2. split; [exact E1|]. split; [exact E2|].
  split; [exact Hc2|]. split; [exact Hs|]. split; [exact Ho|].
  intros Hnd. rewrite Hc2.
  assert (Hnd1 : NoDup (we_path <$> get_watch_folders (config s1))).
  { rewrite Hc1. unfold Py.str_in. case_bool_decide as Hin; [exact Hnd|].
    unfold get_watch_folders at 1. simpl. rewrite fmap_app. apply NoDup_app.
    split; [exact Hnd|]. split; [|apply NoDup_singleton].
    intros x Hx Hx'. apply list_elem_of_singleton in Hx'. simpl in Hx'. congruence. }
  split; [exact Hnd1|]. apply (filter_once we_path); assumption.
Qed.

(** C10: for a path that does not exist, [add_watch_folder] returns
    [False] and only logs a warning: the configuration, what is persisted,
    the observers and the monitoring flag are unchanged, whatever
    [enabled] is. *)
Theorem add_watch_folder_missing s (folder_path category : string) (en : bool) :
  path_exists w folder_path = false ->
  add_watch_folder w folder_path category en s =
    (Ok false,
     set_log (log s ++ [(WARNING, "Watch folder does not exist: " +:+ folder_path)])%list s) /\
  forall s', add_watch_folder w folder_path category en s = (Ok false, s') ->
    config s' = config s /\ get_watch_folders (config s') = get_watch_folders (config s) /\
    config_store s' = config_store s /\ observers s' = observers s /\
    is_monitoring s' = is_monitoring s.
Proof.
  intros Hex. unfold add_watch_folder. rewrite Hex. unfold_monad.
  split; [reflexivity|]. intros s' E. injection E as <-. simpl. auto.
Qed.

(** *** Batch import *)

Lemma log_progress_frame (i n : Z) s :
  exists s',
    log_progress i n s = (Ok tt, s') /\ translator s' = translator s /\ clock s' = clock s.
Proof.
  unfold log_progress. unfold_monad.
  destruct (_ || _)%bool; simpl; eexists; split; try reflexivity; simpl; auto.
Qed.

(** One iteration records the outcome of one import and never raises. *)
Lemma batch_step_spec (destination_path : string) (n i : Z) (file_path : string)
    (results : BatchResults) s :
  exists s',
    let '(o, t', j) := import_file w (clock s) (translator s) file_path destination_path in
    batch_step w destination_path n i file_path results s =
      (Ok (if succeeded o then record_success file_path destination_path results
           else record_failure file_path (d_status (detail_of destination_path file_path o))
                  (default "" (d_error (detail_of destination_path file_path o))) results),
       s') /\
    translator s' = t' /\ clock s' = (clock s + j)%nat.
Proof.
  cbv [batch_step try_except bind call_translator].
  destruct (import_file w (clock s) (translator s) file_path destination_path)
    as [[[[|]|e] t'] j].
  - match goal with |- context [log_progress i n ?st] =>
      destruct (log_progress_frame i n st) as (s' & -> & Ht & Hc) end.
    exists s'. split; [reflexivity|]. rewrite Ht, Hc. split; reflexivity.
  - match goal with |- context [log_progress i n ?st] =>
      destruct (log_progress_frame i n st) as (s' & -> & Ht & Hc) end.
    exists s'. split; [reflexivity|]. rewrite Ht, Hc. split; reflexivity.
  - eexists. split; [reflexivity|]. split; reflexivity.
Qed.

(** The loop visits every file: the counts and the detail records grow
    by what [import_outcomes] tells, in order. *)
Lemma batch_loop_spec (destination_path : string) (n : Z) (file_paths : list string) :
  forall (i : Z) (results : BatchResults) s,
  exists results' s',
    batch_loop w destination_path n i file_paths results s = (Ok results', s') /\
    let outcomes :=
      import_outcomes w destination_path file_paths (translator s) (clock s) in
    length outcomes = length file_paths /\
    details results' =
      (details results ++ zip_with (detail_of destination_path) file_paths outcomes)%list /\
    successful results' = successful results + Z.of_nat (length (filter succeeded outcomes)) /\
    failed results' =
      failed results + Z.of_nat (length (filter (fun o => negb (succeeded o)) outcomes)) /\
    total_files results' = total_files results /\
    batch_start_time results' = batch_start_time results.
Proof.
  induction file_paths as [|file_path rest IH]; intros i results s.
  - exists results, s. simpl. rewrite app_nil_r. repeat split; try reflexivity; lia.
  - cbn [batch_loop import_outcomes]. cbv [bind].
    destruct (batch_step_spec destination_path n i file_path results s) as (s1 & Hstep).
    destruct (import_file w (clock s) (translator s) file_path destination_path)
      as [[o t'] j].
    destruct Hstep as (-> & Ht & Hc).
    match goal with |- context [batch_loop w _ _ _ rest ?r s1] =>
      destruct (IH (i + 1) r s1) as (results' & s' & -> & Hlen & Hd & Hs & Hf & Htot & Hst) end.
    rewrite Ht, Hc in *. cbv zeta in *.
    exists results', s'. split; [reflexivity|].
    cbn [length zip_with]. rewrite Hlen. split; [reflexivity|].
    rewrite Hd, Hs, Hf, Htot, Hst. rewrite !filter_cons.
    destruct o as [[|]|e]; cbn [succeeded negb]; simpl;
      rewrite <- ?app_assoc; simpl; repeat split; try reflexivity; lia.
Qed.

(** The whole call, in terms of the outcomes of its imports. *)
Lemma batch_import_files_spec (file_paths : list string) (destination_path category : string) s :
  exists results s',
    batch_import_files w file_paths destination_path category s = (Ok results, s') /\
    let outcomes :=
      import_outcomes w destination_path file_paths (translator s) (clock s + 2) in
    length outcomes = length file_paths /\
    details results = zip_with (detail_of destination_path) file_paths outcomes /\
    successful results = Z.of_nat (length (filter succeeded outcomes)) /\
    failed results = Z.of_nat (length (filter (fun o => negb (succeeded o)) outcomes)) /\
    total_files results = Z.of_nat (length file_paths) /\
    batch_success_rate results = Some (rate (successful results) (total_files results)).
Proof.
  cbv [batch_import_files bind read_time read_now logger modify].
  match goal with |- context [batch_loop w _ _ _ _ ?r ?st] =>
    destruct (batch_loop_spec destination_path (Z.of_nat (length file_paths)) file_paths 0 r st)
      as (results & s1 & -> & Hlen & Hd & Hs & Hf & Htot & _) end.
  simpl in Hlen, Hd, Hs, Hf, Htot.
  replace (S (S (clock s))) with (clock s + 2)%nat in * by lia.
  eexists _, _. split; [reflexivity|]. cbv zeta. simpl.
  rewrite Hd, Hs, Hf, Htot. repeat split; try reflexivity. exact Hlen.
Qed.

Lemma succeeded_split (l : list (Res bool)) :
  (length (filter succeeded l) + length (filter (fun o => negb (succeeded o)) l))%nat
  = length l.
Proof.
  induction l as [|o l IH]; [reflexivity|]. rewrite !filter_cons.
  destruct o as [[|]|e]; simpl; lia.
Qed.

(** C5: [batch_import_files] returns for every list of files, with one
    detail record per file, in order: the file whose import raised has the
    status [error] and the text of the exception, every other file its
    own [success] or [failed] record; and the numbers of successful and
    failed files add up to the number of files. *)
Theorem batch_import_visits_every_file (file_paths : list string)
    (destination_path category : string) s :
  exists results s',
    batch_import_files w file_paths destination_path category s = (Ok results, s') /\
    let outcomes :=
      import_outcomes w destination_path file_paths (translator s) (clock s + 2) in
    length (details results) = length file_paths /\
    (forall (i : nat) (file_path : string),
       file_paths !! i = Some file_path ->
       exists o, outcomes !! i = Some o /\
         details results !! i = Some (detail_of destination_path file_path o) /\
         d_file (detail_of destination_path file_path o) = file_path /\
         d_status (detail_of destination_path file_path o) =
           match o with
           | Ok true => "success"
           | Ok false => "failed"
           | Raise _ => "error"
           end) /\
    total_files results = Z.of_nat (length file_paths) /\
    successful results + failed results = total_files results.
Proof.
  destruct (batch_import_files_spec file_paths destination_path category s)
    as (results & s' & E & Hlen & Hd & Hs & Hf & Htot & _).
  exists results, s'. split; [exact E|]. cbv zeta in *.
  set (outcomes := import_outcomes w destination_path file_paths (translator s) (clock s + 2))
    in *.
  split; [rewrite Hd, length_zip_with; lia|].
  split.
  - intros i file_path Hi.
    destruct (lookup_lt_is_Some_2 outcomes i) as [o Ho].
    { rewrite Hlen. eapply lookup_lt_Some, Hi. }
    exists o. split; [exact Ho|]. split.
    + rewrite Hd, lookup_zip_with, Hi. simpl. rewrite Ho. reflexivity.
    + destruct o as [[|]|e]; split; reflexivity.
  - split; [exact Htot|]. rewrite Hs, Hf, Htot, <- Hlen, <- (succeeded_split outcomes). lia.
Qed.

(** C6: the success rate of a batch is [successful / total_files * 100],
    computed on floats, when there are files, and the integer [0] for the
    empty list; five files of which exactly two do not succeed give 3
    successful, 2 failed and the rate [60.0]. *)
Theorem batch_success_rate_value (file_paths : list string)
    (destination_path category : string) s :
  exists results s',
    batch_import_files w file_paths destination_path category s = (Ok results, s') /\
    batch_success_rate results =
      Some (if 0 <? total_files results
            then PyFloat (PrimFloat.mul
                            (PrimFloat.div (Py.float_of_Z (successful results))
                                           (Py.float_of_Z (total_files results)))
                            (Py.float_of_Z 100))
            else PyInt 0) /\
    (file_paths = [] -> batch_success_rate results = Some (PyInt 0)) /\
    (length file_paths = 5%nat ->
     length (filter (fun o => negb (succeeded o))
               (import_outcomes w destination_path file_paths (translator s) (clock s + 2)))
       = 2%nat ->
     successful results = 3 /\ failed results = 2 /\
     batch_success_rate results = Some (PyFloat 60%float)).
Proof.
  destruct (batch_import_files_spec file_paths destination_path category s)
    as (results & s' & E & Hlen & Hd & Hs & Hf & Htot & Hr).
  exists results, s'. split; [exact E|]. cbv zeta in *.
  split; [exact Hr|]. split.
  - intros ->. rewrite Hr, Htot. reflexivity.
  - intros H5 H2.
    pose proof (succeeded_split
                  (import_outcomes w destination_path file_paths (translator s) (clock s + 2)))
      as Hsplit.
    rewrite Hlen, H5, H2 in Hsplit.
    assert (Hs3 : successful results = 3) by (rewrite Hs; lia).
    assert (Hf2 : failed results = 2) by (rewrite Hf, H2; reflexivity).
    split; [exact Hs3|]. split; [exact Hf2|].
    rewrite Hr, Hs3, Htot, H5. reflexivity.
Qed.

(** *** Report *)

Lemma get_statistics_spec s :
  exists s',
    get_statistics w s =
      (Ok (derived_statistics (statistics s)
             ((fun t0 => Py.datetime_sub (datetime_now w (clock s)) t0)
                <$> start_time (statistics s))
             (is_monitoring s) (config s)), s') /\
    statistics s' = statistics s /\ config s' = config s /\
    is_monitoring s' = is_monitoring s /\
    clock s' = match start_time (statistics s) with Some _ => S (clock s) | None => clock s end.
Proof.
  unfold get_statistics, read_now. unfold_monad.
  destruct (start_time (statistics s)); simpl; eexists; split; try reflexivity; simpl; auto.
Qed.

(** [generate_report] never raises and only advances the clock, besides
    what it writes and logs. *)
Lemma generate_report_spec (output_file : option string) s :
  exists s',
    generate_report w output_file s
      = (Ok (Py.join (String "010" "") (report_of w s (clock s))), s') /\
    statistics s' = statistics s /\ config s' = config s /\
    is_monitoring s' = is_monitoring s /\
    clock s' = S (match start_time (statistics s) with Some _ => S (clock s) | None => clock s end).
Proof.
  cbv [generate_report bind].
  destruct (get_statistics_spec s) as (s1 & -> & Hst & Hc & Hm & Hk).
  cbv [read_now get].
  change (config (set_clock (S (clock s1)) s1)) with (config s1).
  unfold report_of. rewrite Hk, Hc.
  match goal with |- context [Py.join ?nl ?ls] => set (text := Py.join nl ls) end.
  destruct output_file as [f|]; [destruct (String.eqb f "")|]; cbv [negb when ret].
  - eexists. split; [reflexivity|]. simpl. auto.
  - cbv [try_except write_file bind raise modify logger].
    destruct (write_error w f); eexists; (split; [reflexivity|]); simpl; auto.
  - eexists. split; [reflexivity|]. simpl. auto.
Qed.

(** C3 (as amended): two calls of [generate_report] in a row return and
    leave statistics, configuration and monitoring flag as they were; each
    returns the report of the same state, at the clock of its call. Two
    such reports have the same number of lines and agree on every line
    except the [Generated:] line (line 3) and, when a start time is set,
    the [Uptime:] line (line 9); they are the same text when the clock
    readings of the two calls are the same. *)
Theorem report_repeatable_up_to_clock (f1 f2 : option string) s :
  exists s1 s2,
    generate_report w f1 s = (Ok (Py.join (String "010" "") (report_of w s (clock s))), s1) /\
    generate_report w f2 s1 = (Ok (Py.join (String "010" "") (report_of w s (clock s1))), s2) /\
    (clock s < clock s1)%nat /\
    statistics s1 = statistics s /\ config s1 = config s /\
    is_monitoring s1 = is_monitoring s /\
    forall k1 k2 : nat,
      length (report_of w s k1) = length (report_of w s k2) /\
      (forall i : nat,
         i <> 3%nat -> (i = 9%nat -> start_time (statistics s) = None) ->
         report_of w s k1 !! i = report_of w s k2 !! i) /\
      report_of w s k1 !! 3%nat =
        Some ("Generated: "
              +:+ Py.isoformat (datetime_now w (match start_time (statistics s) with
                                                 | Some _ => S k1
                                                 | None => k1
                                                 end))) /\
      (datetime_now w k1 = datetime_now w k2 ->
       datetime_now w (S k1) = datetime_now w (S k2) ->
       report_of w s k1 = report_of w s k2).
Proof.
  destruct (generate_report_spec f1 s) as (s1 & E1 & Hst & Hc & Hm & Hk).
  destruct (generate_report_spec f2 s1) as (s2 & E2 & _).
  exists s1, s2. split; [exact E1|]. split.
  { rewrite E2. unfold report_of. rewrite Hst, Hc, Hm. reflexivity. }
  split; [rewrite Hk; destruct (start_time (statistics s)); lia|].
  split; [exact Hst|]. split; [exact Hc|]. split; [exact Hm|].
  intros k1 k2. unfold report_of.
  destruct (start_time (statistics s)) as [t0|]; cbn [fmap option_fmap option_map];
    unfold report_lines, derived_statistics;
    cbn [uptime monitoring_enabled watched_folders import_rules_count stats success_rate
         average_processing_time min_processing_time max_processing_time].
  - match goal with |- context [(["  Uptime: " +:+ _] ++ ?rest)%list] =>
      generalize rest end.
    intros rest. generalize (Py.repeat_string "=" 60). intros bar. cbn [app length].
    split; [reflexivity|]. split; [|split; [reflexivity|intros -> ->; reflexivity]].
    intros i Hi3 Hi9.
    do 10 (destruct i as [|i];
           [first [reflexivity | congruence | discriminate (Hi9 eq_refl)]|]).
    reflexivity.
  - match goal with |- context [([] ++ ?rest)%list] => generalize rest end.
    intros rest. generalize (Py.repeat_string "=" 60). intros bar. cbn [app length].
    split; [reflexivity|]. split; [|split; [reflexivity|intros -> _; reflexivity]].
    intros i Hi3 _.
    do 4 (destruct i as [|i]; [first [reflexivity | congruence]|]).
    reflexivity.
Qed.

(** *** Event queue *)

Lemma process_single_file_total s (file_path category event_type : string) :
  exists (b : bool) s',
    process_single_file w file_path category event_type s = (Ok b, s') /\
    total_processed (statistics s') = total_processed (statistics s) + 1.
Proof.
  cbv [process_single_file bind read_time try_finally try_except].
  pose proof (process_body_frame file_path category (set_clock (S (clock s)) s))
    as (_ & Htot & _).
  destruct (process_body w file_path category (set_clock (S (clock s)) s))
    as [[b|e] s1]; simpl in Htot.
  - destruct (record_processing_time_spec (time_time w (clock s)) s1)
      as (s' & -> & _ & Ht & _).
    exists b, s'. split; [reflexivity|]. congruence.
  - destruct (count_exception_spec file_path e s1) as (s2 & -> & _ & _ & Ht2 & _).
    destruct (record_processing_time_spec (time_time w (clock s)) s2)
      as (s' & -> & _ & Ht & _).
    exists false, s'. split; [reflexivity|]. congruence.
Qed.

(** Every drained item is handed to [process_single_file] once. *)
Lemma process_items_spec (items : list QueueItem) :
  forall s,
  exists s',
    process_items w items s = (Ok tt, s') /\
    total_processed (statistics s') =
      total_processed (statistics s) + Z.of_nat (length items).
Proof.
  induction items as [|item rest IH]; intros s.
  - exists s. split; [reflexivity|]. simpl. lia.
  - cbn [process_items]. cbv [bind try_except].
    destruct (process_single_file_total s (q_path item) (q_category item) (q_event_type item))
      as (b & s1 & -> & Ht).
    cbv [ret]. destruct (IH s1) as (s' & -> & Ht').
    exists s'. split; [reflexivity|]. rewrite Ht', Ht. cbn [length]. lia.
Qed.

(** A thread that wakes up empties the queue and processes what it held. *)
Lemma process_queue_spec (h : FileEventHandler) s :
  exists s',
    _process_queue w h s = (Ok (mkHandler (h_category h) [] (pred (sleeping h))), s') /\
    total_processed (statistics s') =
      total_processed (statistics s) + Z.of_nat (length (processing_queue h)).
Proof.
  unfold _process_queue. destruct (processing_queue h) as [|item rest] eqn:Eq.
  - exists s. split; [reflexivity|]. simpl. lia.
  - cbv [bind]. destruct (process_items_spec (item :: rest) s) as (s' & -> & Ht).
    exists s'. split; [reflexivity|]. exact Ht.
Qed.










End Properties.

(** *** Failure counting of single-file processing *)

Section FailureCounting.

Context {B : Type} `{Backend B}.
Variable w : World.

Implicit Type s : @State B.

Ltac unfold_monad :=
  unfold bind, ret, raise, get, modify, when, logger, update_statistics, try_except,
         call_translator in *; simpl in *.




End FailureCounting.

(** *** Bursts of events *)

Section EventBursts.

Context {B : Type} `{Backend B}.
Variable w : World.

Implicit Type s : @State B.





End EventBursts.

(** ** Concrete runs in the sample environment *)

(** A file that fits the rule of its category is imported. *)
Example hero_is_imported :
  let out := process_single_file Sample.world "/in/hero_character.foo" "characters" "manual"
               Sample.state0 in
  out.1 = Ok true /\
  successful_imports (statistics out.2) = 1 /\ failed_imports (statistics out.2) = 0.
Proof. vm_compute. auto. Qed.

(** A file name outside the patterns is skipped, not failed; an empty
    file is failed by the quality check. *)
Example miss_and_failure :
  let miss := process_single_file Sample.world "/in/prop_barrel.foo" "characters" "manual"
                Sample.state0 in
  let bad := process_single_file Sample.world "/in/empty_character.foo" "characters" "manual"
               Sample.state0 in
  miss.1 = Ok false /\ failed_imports (statistics miss.2) = 0 /\
  total_processed (statistics miss.2) = 1 /\
  bad.1 = Ok false /\ failed_imports (statistics bad.2) = 1.
Proof. vm_compute. auto 6. Qed.

(** Five files, one import raising and one refused. *)
Example batch_of_five :
  exists results s',
    @batch_import_files unit flaky_backend Sample.world
      ["/in/a.foo"; "/in/b.foo"; "/in/c.foo"; "/in/d.bar"; "/in/hero_character.foo"]
      "/Game/Batch/" "batch" flaky_state = (Ok results, s') /\
    successful results = 3 /\ failed results = 2 /\
    batch_success_rate results = Some (PyFloat 60%float) /\
    d_status <$> details results = ["success"; "error"; "success"; "failed"; "success"].
Proof. eexists _, _. split; [vm_compute; reflexivity|]. vm_compute. auto. Qed.

(** A burst of three events for one file on a new handler, then the
    wake-up of its thread: one file is processed, once. *)
Example burst_of_three :
  let run :=
    handle_all Sample.world (new_handler "characters")
      [Created (mkFsEvent false "/in/hero_character.foo");
       Modified (mkFsEvent false "/in/hero_character.foo");
       Modified (mkFsEvent false "/in/hero_character.foo")] Sample.state0 in
  exists h1 s1 h2 s2,
    run = (Ok h1, s1) /\
    queued_paths h1 = ["/in/hero_character.foo"] /\
    (q_event_type <$> processing_queue h1) = ["created"] /\
    sleeping h1 = 1%nat /\
    handle Sample.world h1 ThreadWakes s1 = (Ok h2, s2) /\
    processing_queue h2 = [] /\
    total_processed (statistics s2) = 1 /\ successful_imports (statistics s2) = 1.
Proof.
  eexists _, _, _, _. split; [vm_compute; reflexivity|].
  repeat (split; [vm_compute; reflexivity|]). vm_compute. reflexivity.
Qed.

(** Witness of C1: the empty sample file under the default policy. *)
Lemma quality_size_bounds_witness :
  let s := Sample.state0 in
  let file_path := "/in/empty_character.foo" in
  default true (quality_checks (config s) ≫= enabled) = true /\
  path_exists Sample.world file_path = true /\
  let max_mb := default 100 (quality_checks (config s) ≫= max_file_size_mb) in
  let min_bytes := default 1024 (quality_checks (config s) ≫= min_file_size_bytes) in
  let size := getsize Sample.world file_path in
  let out := _perform_quality_checks Sample.world file_path s in
  (rejected_with "File too large: " s out <-> max_mb * 1024 * 1024 < size) /\
  (rejected_with "File too small: " s out <->
     size <= max_mb * 1024 * 1024 /\ size < min_bytes) /\
  (max_mb = 100 -> min_bytes = 1024 ->
     (size = 0 -> rejected_with "File too small: " s out) /\
     (size = 200000000 -> rejected_with "File too large: " s out) /\
     (size = 2048 -> ~ rejected_with "File too large: " s out /\
                     ~ rejected_with "File too small: " s out)).
Proof.
  split; [reflexivity|]. split; [reflexivity|].
  apply (quality_size_bounds Sample.world Sample.state0 "/in/empty_character.foo");
    reflexivity.
Defined.

(** Counterexample to C1 as stated: under the policy 100 MB / 1024 bytes a
    file of 100,000,001 bytes is larger than [100 * 10^6] bytes, yet the
    quality check accepts it without logging anything: the bound is
    [100 * 1024 * 1024 = 104,857,600] bytes. *)
Lemma size_bound_is_binary_megabytes :
  let s := Sample.state0 in
  let file_path := "/in/mid_character.foo" in
  let out := _perform_quality_checks Sample.world file_path s in
  default true (quality_checks (config s) ≫= enabled) = true /\
  path_exists Sample.world file_path = true /\
  default 100 (quality_checks (config s) ≫= max_file_size_mb) = 100 /\
  100 * 1000000 < getsize Sample.world file_path /\
  out.1 = Ok true /\ log out.2 = [] /\
  ~ rejected_with "File too large: " s out.
Proof.
  cbv zeta. repeat (split; [vm_compute; reflexivity|]).
  intros [Hr _]. vm_compute in Hr. discriminate.
Qed.

(** Counterexample to C3 as stated: two calls of [generate_report] in a
    row on a fresh manager, with nothing changed in between but the
    clock, return different texts. *)
Lemma report_changes_with_clock :
  exists (text1 text2 : string) s1 s2,
    generate_report Sample.world None Sample.state0 = (Ok text1, s1) /\
    generate_report Sample.world None s1 = (Ok text2, s2) /\
    statistics s1 = statistics Sample.state0 /\
    config s1 = config Sample.state0 /\
    is_monitoring s1 = is_monitoring Sample.state0 /\
    text1 <> text2.
Proof.
  destruct (generate_report Sample.world None Sample.state0) as [r1 s1] eqn:E1.
  vm_compute in E1. injection E1 as <- <-.
  eexists _, _, _, _. split; [reflexivity|].
  split; [vm_compute; reflexivity|].
  repeat (split; [reflexivity|]).
  intros E. apply String.eqb_eq in E. vm_compute in E. discriminate.
Qed.

(** Witness of C8: the sample folder [/watch], added twice to a fresh manager. *)
Lemma add_watch_folder_idempotent_witness :
  path_exists Sample.world "/watch" = true /\
  exists (b : bool) s1 s2,
    add_watch_folder Sample.world "/watch" "characters" true Sample.state0 = (Ok b, s1) /\
    add_watch_folder Sample.world "/watch" "characters" true s1 = (Ok false, s2) /\
    config s2 = config s1 /\
    config_store s2 = config_store s1 /\
    observers s2 = observers s1 /\
    (NoDup (we_path <$> get_watch_folders (config Sample.state0)) ->
     NoDup (we_path <$> get_watch_folders (config s2)) /\
     length (filter (fun e => we_path e = abspath Sample.world "/watch")
               (get_watch_folders (config s2))) = 1%nat).
Proof.
  split; [reflexivity|].
  apply (add_watch_folder_idempotent Sample.world Sample.state0 "/watch" "characters"
           "characters" true true).
  reflexivity.
Defined.

(** Witness of C10: a path outside the sample file system. *)
Lemma add_watch_folder_missing_witness :
  path_exists Sample.world "/nowhere" = false /\
  add_watch_folder Sample.world "/nowhere" "characters" true Sample.state0 =
    (Ok false,
     set_log (log Sample.state0
              ++ [(WARNING, "Watch folder does not exist: " +:+ "/nowhere")])%list
       Sample.state0) /\
  forall s', add_watch_folder Sample.world "/nowhere" "characters" true Sample.state0
             = (Ok false, s') ->
    config s' = config Sample.state0 /\
    get_watch_folders (config s') = get_watch_folders (config Sample.state0) /\
    config_store s' = config_store Sample.state0 /\
    observers s' = observers Sample.state0 /\
    is_monitoring s' = is_monitoring Sample.state0.
Proof.
  split; [reflexivity|].
  apply (add_watch_folder_missing Sample.world Sample.state0 "/nowhere" "characters" true).
  reflexivity.
Defined.


(** The verdicts on the sample files: the hero file is imported, the
    barrel matches no pattern, the empty file is rejected by the gate,
    and the category [props] has no rule; a translator that refuses the
    file or raises gives the last two verdicts. *)
Example verdicts_of_sample_files :
  verdict Sample.world "/in/hero_character.foo" "characters" Sample.state0 = Imported /\
  verdict Sample.world "/in/prop_barrel.foo" "characters" Sample.state0 = Miss /\
  verdict Sample.world "/in/empty_character.foo" "characters" Sample.state0 = GateRejected /\
  verdict Sample.world "/in/hero_character.foo" "props" Sample.state0 = Miss /\
  @verdict unit
    {| validate_file := fun _ _ t _ => (Ok (true, ""), t, 0%nat);
       set_options := fun _ _ t _ => (Ok tt, t, 0%nat);
       import_file := fun _ _ t _ _ => (Ok false, t, 0%nat) |}
    Sample.world "/in/hero_character.foo" "characters" flaky_state = ImportFailed /\
  @verdict unit
    {| validate_file := fun _ _ t _ => (Ok (true, ""), t, 0%nat);
       set_options := fun _ _ t _ => (Raise "bad option", t, 0%nat);
       import_file := fun _ _ t _ _ => (Ok true, t, 0%nat) |}
    Sample.world "/in/hero_character.foo" "characters" flaky_state
    = BackendRaised "bad option".
Proof. vm_compute. auto 10. Qed.


(** ** Further properties of the code *)

(** ** Further properties of the manager *)

Section WatchFolders.

Context {B : Type} `{Backend B}.
Variable w : World.

Implicit Type s : @State B.

Ltac unfold_monad :=
  unfold bind, ret, raise, get, modify, when, logger, update_statistics, try_except,
         call_translator in *; simpl in *.

(** What [save_configuration] does, by the answer of the store. *)
Lemma save_configuration_spec s :
  exists s',
    save_configuration w s = (Ok tt, s') /\
    config s' = config s /\ observers s' = observers s /\
    is_monitoring s' = is_monitoring s /\ statistics s' = statistics s /\
    match save_config_error w (config s) with
    | None =>
        config_store s' = Some (config s) /\
        log s' = (log s ++ [(INFO, "Automation configuration saved")])%list
    | Some e =>
        config_store s' = config_store s /\
        log s' = (log s ++ [(ERROR, "Error saving configuration: " +:+ e)])%list
    end.
Proof.
  unfold save_configuration, save_config. unfold_monad.
  destruct (save_config_error w (config s)); simpl; eexists; split; try reflexivity;
    simpl; auto 6.
Qed.

(** What [_start_folder_monitoring] does to the observers. *)
Lemma start_folder_monitoring_spec (watch_entry : WatchEntry) s :
  exists s',
    _start_folder_monitoring w watch_entry s = (Ok tt, s') /\
    observers s' =
      (if (path_exists w (we_path watch_entry)
           && bool_decide (observer_error w (we_path watch_entry) = None))%bool
       then <[we_path watch_entry := we_category watch_entry]> (observers s)
       else observers s) /\
    config s' = config s /\ config_store s' = config_store s /\
    is_monitoring s' = is_monitoring s /\ statistics s' = statistics s.
Proof.
  unfold _start_folder_monitoring. unfold_monad.
  destruct (path_exists w (we_path watch_entry)); simpl;
    [destruct (observer_error w (we_path watch_entry)); simpl|];
    eexists; split; try reflexivity; simpl; auto.
Qed.

(** What [remove_watch_folder] does, whatever the folder. *)
Lemma remove_watch_folder_spec (folder_path : string) s :
  exists s',
    remove_watch_folder w folder_path s = (Ok tt, s') /\
    config s' =
      mkConfig
        (Some (filter (fun e => we_path e <> abspath w folder_path)
                 (get_watch_folders (config s))))
        (import_rules (config s)) (quality_checks (config s)) /\
    observers s' = delete (abspath w folder_path) (observers s) /\
    is_monitoring s' = is_monitoring s /\ statistics s' = statistics s.
Proof.
  cbv [remove_watch_folder bind get modify].
  match goal with |- context [save_configuration w ?st] =>
    destruct (save_configuration_frame w st) as (s1 & -> & Hc & Hm & Ho & Hst) end.
  cbn [config set_config] in Hc. cbn [is_monitoring set_config] in Hm.
  cbn [observers set_config] in Ho. cbn [statistics set_config] in Hst.
  destruct (observers s1 !! abspath w folder_path) as [c|] eqn:El.
  - cbv [logger modify]. eexists. split; [reflexivity|]. simpl.
    rewrite Hc, Ho, Hm, Hst. auto.
  - exists s1. split; [reflexivity|]. rewrite Hc, Hm, Hst.
    split; [reflexivity|]. split; [|auto].
    rewrite <- Ho. symmetry. apply delete_id. exact El.
Qed.

(** X2: [remove_watch_folder] never raises; afterwards no watch entry has
    the absolute path of the folder, the entries of other paths are kept
    in their order, the observer of the path is gone and the others are
    kept. Rules, quality policy, statistics and monitoring flag are
    unchanged. *)
Theorem remove_watch_folder_effect (folder_path : string) s :
  exists s',
    remove_watch_folder w folder_path s = (Ok tt, s') /\
    get_watch_folders (config s') =
      filter (fun e => we_path e <> abspath w folder_path) (get_watch_folders (config s)) /\
    (abspath w folder_path ∉ watched_paths (config s')) /\
    (forall e, e ∈ get_watch_folders (config s') <->
               e ∈ get_watch_folders (config s) /\ we_path e <> abspath w folder_path) /\
    observers s' !! abspath w folder_path = None /\
    (forall p, p <> abspath w folder_path -> observers s' !! p = observers s !! p) /\
    import_rules (config s') = import_rules (config s) /\
    quality_checks (config s') = quality_checks (config s) /\
    statistics s' = statistics s /\ is_monitoring s' = is_monitoring s.
Proof.
  destruct (remove_watch_folder_spec folder_path s) as (s' & E & Hc & Ho & Hm & Hst).
  exists s'. split; [exact E|]. rewrite Hc, Ho. unfold watched_paths. cbn.
  split; [reflexivity|]. split.
  { intros Hin. apply list_elem_of_fmap in Hin as (e & He & Hin).
    apply list_elem_of_filter in Hin as [Hne _]. apply Hne. symmetry. exact He. }
  split; [intros e; rewrite list_elem_of_filter; tauto|].
  split; [apply lookup_delete_eq|].
  split; [intros p Hp; apply lookup_delete_ne; congruence|]. auto.
Qed.

Lemma filter_other_paths (a : string) (l : list WatchEntry) :
  a ∉ we_path <$> l -> filter (fun e => we_path e <> a) l = l.
Proof.
  induction l as [|e l IH]; [reflexivity|]. rewrite fmap_cons, not_elem_of_cons.
  intros [Hne Hl]. rewrite filter_cons. destruct (decide (we_path e <> a)) as [_|Hn].
  - rewrite IH by exact Hl. reflexivity.
  - exfalso. apply Hn. intros E. apply Hne. symmetry. exact E.
Qed.

(** What [add_watch_folder] does for a folder that exists and is not
    watched yet. *)
Lemma add_watch_folder_new s (folder_path category : string) (en : bool) :
  path_exists w folder_path = true ->
  abspath w folder_path ∉ watched_paths (config s) ->
  let entry := mkWatchEntry (abspath w folder_path) category (Some en)
                 (Py.isoformat (datetime_now w (clock s))) in
  exists s',
    add_watch_folder w folder_path category en s = (Ok true, s') /\
    config s' = mkConfig (Some (get_watch_folders (config s) ++ [entry])%list)
                  (import_rules (config s)) (quality_checks (config s)) /\
    observers s' =
      (if (is_monitoring s && path_exists w (abspath w folder_path)
           && bool_decide (observer_error w (abspath w folder_path) = None))%bool
       then <[abspath w folder_path := category]> (observers s)
       else observers s) /\
    config_store s' =
      match save_config_error w
              (mkConfig (Some (get_watch_folders (config s) ++ [entry])%list)
                 (import_rules (config s)) (quality_checks (config s))) with
      | Some _ => config_store s
      | None => Some (mkConfig (Some (get_watch_folders (config s) ++ [entry])%list)
                        (import_rules (config s)) (quality_checks (config s)))
      end /\
    is_monitoring s' = is_monitoring s /\ statistics s' = statistics s.
Proof.
  intros Hex Hnew entry. unfold add_watch_folder. rewrite Hex.
  cbv [negb bind read_now get]. simpl. unfold watched_paths in Hnew.
  unfold Py.str_in. rewrite bool_decide_eq_false_2 by exact Hnew. cbv [negb modify].
  fold entry.
  match goal with |- context [save_configuration w ?st] =>
    destruct (save_configuration_spec st) as (s1 & -> & Hc1 & Ho1 & Hm1 & Hst1 & Hsave) end.
  cbn [config set_config] in Hc1, Hsave. cbn [observers set_config set_clock] in Ho1.
  cbn [is_monitoring set_config set_clock] in Hm1.
  cbn [statistics set_config set_clock] in Hst1.
  cbn [config_store set_config set_clock] in Hsave.
  assert (Hstore : config_store s1 =
    match save_config_error w
            (mkConfig (Some (get_watch_folders (config s) ++ [entry])%list)
               (import_rules (config s)) (quality_checks (config s))) with
    | Some _ => config_store s
    | None => Some (mkConfig (Some (get_watch_folders (config s) ++ [entry])%list)
                      (import_rules (config s)) (quality_checks (config s)))
    end).
  { destruct (save_config_error w _); apply Hsave. }
  clear Hsave.
  match goal with |- context [set_log ?l s1] => set (s2 := set_log l s1) end.
  change (is_monitoring s2) with (is_monitoring s1). rewrite Hm1.
  destruct (is_monitoring s); cbv [when ret andb].
  - destruct (start_folder_monitoring_spec entry s2) as (s3 & -> & Ho3 & Hc3 & Hs3 & Hm3 & Hst3).
    exists s3. split; [reflexivity|]. cbn [we_path we_category entry] in Ho3.
    rewrite Hc3, Ho3, Hs3, Hm3, Hst3. subst s2. cbn. rewrite Hc1, Ho1, Hm1, Hst1, Hstore.
    auto 6.
  - exists s2. split; [reflexivity|]. subst s2. cbn. rewrite Hc1, Ho1, Hm1, Hst1, Hstore.
    auto 6.
Qed.

(** What [add_watch_folder] does to the watched paths, whatever the folder. *)
Lemma add_watch_folder_paths s (folder_path category : string) (en : bool) :
  exists (b : bool) s',
    add_watch_folder w folder_path category en s = (Ok b, s') /\
    watched_paths (config s') =
      (watched_paths (config s) ++
       (if (path_exists w folder_path
            && negb (Py.str_in (abspath w folder_path) (watched_paths (config s))))%bool
        then [abspath w folder_path] else []))%list /\
    is_monitoring s' = is_monitoring s /\ statistics s' = statistics s.
Proof.
  destruct (path_exists w folder_path) eqn:Hex.
  - unfold Py.str_in. case_bool_decide as Hin; cbv [andb negb].
    + destruct (add_watch_folder_existing w s folder_path category en Hex)
        as (s' & E & Hc & Hf). cbv zeta in *. unfold Py.str_in in *.
      rewrite bool_decide_eq_true_2 in * by exact Hin.
      destruct (Hf eq_refl) as (_ & _ & Hm).
      exists false, s'. split; [exact E|]. rewrite Hc, app_nil_r. split; [reflexivity|].
      split; [exact Hm|].
      revert E. unfold add_watch_folder. rewrite Hex. cbv [negb bind read_now get].
      unfold Py.str_in. simpl. rewrite bool_decide_eq_true_2 by exact Hin.
      cbv [negb logger modify ret]. intros E. injection E as <-. reflexivity.
    + destruct (add_watch_folder_new s folder_path category en Hex Hin)
        as (s' & E & Hc & _ & _ & Hm & Hst).
      exists true, s'. split; [exact E|]. rewrite Hc. unfold watched_paths. cbn.
      rewrite fmap_app. auto.
  - exists false. unfold add_watch_folder. rewrite Hex. unfold_monad.
    eexists. split; [reflexivity|]. simpl. rewrite app_nil_r. auto.
Qed.

Lemma observe_all_cons (e : WatchEntry) (l : list WatchEntry) (o : gmap string string) :
  observe_all w (e :: l) o =
  observe_all w l (if startable w e then <[we_path e := we_category e]> o else o).
Proof. reflexivity. Qed.

Lemma start_all_spec (l : list WatchEntry) :
  forall s,
  exists s',
    start_all w l s = (Ok tt, s') /\
    observers s' = observe_all w l (observers s) /\
    config s' = config s /\ config_store s' = config_store s /\
    is_monitoring s' = is_monitoring s /\ statistics s' = statistics s.
Proof.
  induction l as [|e l IH]; intros s.
  - exists s. repeat split; reflexivity.
  - cbn [start_all]. rewrite observe_all_cons. cbv [bind]. unfold startable.
    destruct (default true (we_enabled e)); cbv [when andb].
    + destruct (start_folder_monitoring_spec e s) as (s1 & -> & Ho & Hc & Hs & Hm & Hst).
      destruct (IH s1) as (s' & -> & Ho' & Hc' & Hs' & Hm' & Hst').
      exists s'. split; [reflexivity|]. rewrite Ho', Hc', Hs', Hm', Hst', Ho.
      auto 6.
    + cbv [ret]. destruct (IH s) as (s' & -> & Ho' & Hrest).
      exists s'. split; [reflexivity|]. split; [exact Ho'|exact Hrest].
Qed.

Lemma observe_all_other (l : list WatchEntry) :
  forall (o : gmap string string) (p : string),
  p ∉ we_path <$> l -> observe_all w l o !! p = o !! p.
Proof.
  induction l as [|e l IH]; intros o p Hp; [reflexivity|].
  rewrite fmap_cons, not_elem_of_cons in Hp. destruct Hp as [Hne Hp].
  rewrite observe_all_cons, IH by exact Hp.
  destruct (startable w e); [|reflexivity]. apply lookup_insert_ne. congruence.
Qed.

Lemma observe_all_entry (l : list WatchEntry) :
  forall (o : gmap string string) (e : WatchEntry),
  NoDup (we_path <$> l) -> e ∈ l ->
  observe_all w l o !! we_path e =
    if startable w e then Some (we_category e) else o !! we_path e.
Proof.
  induction l as [|e0 l IH]; intros o e Hnd Hin; [inversion Hin|].
  rewrite fmap_cons, NoDup_cons in Hnd. destruct Hnd as [Hnotin Hnd].
  rewrite observe_all_cons.
  apply elem_of_cons in Hin as [->|Hin].
  - rewrite observe_all_other by exact Hnotin.
    destruct (startable w e0); [apply lookup_insert_eq|reflexivity].
  - rewrite IH by assumption.
    destruct (startable w e); [reflexivity|].
    destruct (startable w e0); [|reflexivity].
    apply lookup_insert_ne. intros E. apply Hnotin. rewrite E.
    apply list_elem_of_fmap. exists e. auto.
Qed.

(** What [start_monitoring] does when it starts. *)
Lemma start_monitoring_spec s :
  watchdog_available w = true -> is_monitoring s = false ->
  exists s',
    start_monitoring w s = (Ok true, s') /\
    is_monitoring s' = true /\
    observers s' = observe_all w (get_watch_folders (config s)) (observers s) /\
    config s' = config s /\ config_store s' = config_store s /\
    statistics s' =
      mkStatistics (total_processed (statistics s)) (successful_imports (statistics s))
        (failed_imports (statistics s)) (Some (datetime_now w (clock s)))
        (last_activity (statistics s)) (files_per_category (statistics s))
        (processing_times (statistics s)).
Proof.
  intros Hw Hm. unfold start_monitoring. rewrite Hw. cbv [negb bind get]. rewrite Hm.
  cbv [read_now update_statistics modify]. cbn [config set_statistics set_clock].
  match goal with |- context [start_all w ?l ?st] =>
    destruct (start_all_spec l st) as (s1 & -> & Ho & Hc & Hs & _ & Hst) end.
  cbv [logger modify ret]. eexists. split; [reflexivity|]. cbn.
  rewrite Ho, Hc, Hs, Hst. cbn. auto 6.
Qed.

Lemma start_monitoring_frame s :
  exists (b : bool) s', start_monitoring w s = (Ok b, s') /\ config s' = config s.
Proof.
  destruct (watchdog_available w) eqn:Hw.
  - destruct (is_monitoring s) eqn:Hm.
    + unfold start_monitoring. rewrite Hw. cbv [negb bind get]. rewrite Hm.
      unfold_monad. eexists _, _. split; reflexivity.
    + destruct (start_monitoring_spec s Hw Hm) as (s' & E & _ & _ & Hc & _).
      exists true, s'. auto.
  - unfold start_monitoring. rewrite Hw. unfold_monad. eexists _, _. split; reflexivity.
Qed.

Lemma stop_monitoring_spec s :
  exists s',
    stop_monitoring s = (Ok tt, s') /\
    config s' = config s /\ statistics s' = statistics s /\
    config_store s' = config_store s /\
    is_monitoring s' = false /\
    observers s' = (if is_monitoring s then ∅ else observers s).
Proof.
  unfold stop_monitoring. cbv [bind get]. destruct (is_monitoring s) eqn:Hm; cbv [negb].
  - unfold_monad. eexists. split; [reflexivity|]. simpl. auto 6.
  - unfold_monad. eexists. split; [reflexivity|]. simpl. auto 6.
Qed.

(** X1: [save_configuration] never raises and leaves the configuration in
    memory as it is: when the store accepts the configuration, what is
    persisted is that configuration; otherwise what was persisted stays
    and the error is only logged. *)
Theorem save_configuration_outcome s :
  exists s',
    save_configuration w s = (Ok tt, s') /\
    config s' = config s /\
    (save_config_error w (config s) = None ->
     config_store s' = Some (config s) /\
     log s' = (log s ++ [(INFO, "Automation configuration saved")])%list) /\
    (forall e, save_config_error w (config s) = Some e ->
     config_store s' = config_store s /\
     log s' = (log s ++ [(ERROR, "Error saving configuration: " +:+ e)])%list).
Proof.
  destruct (save_configuration_spec s) as (s' & E & Hc & _ & _ & _ & Hsave).
  exists s'. split; [exact E|]. split; [exact Hc|].
  destruct (save_config_error w (config s)) as [e|].
  - split; [discriminate|]. intros e' [= <-]. exact Hsave.
  - split; [intros _; exact Hsave|discriminate].
Qed.

(** X3: for a folder that exists and is not watched yet,
    [add_watch_folder] followed by [remove_watch_folder] gives back the
    watch entries there were, and leaves no observer for the folder. *)
Theorem add_then_remove_restores s (folder_path category : string) (en : bool) :
  path_exists w folder_path = true ->
  abspath w folder_path ∉ watched_paths (config s) ->
  exists s1 s2,
    add_watch_folder w folder_path category en s = (Ok true, s1) /\
    remove_watch_folder w folder_path s1 = (Ok tt, s2) /\
    get_watch_folders (config s2) = get_watch_folders (config s) /\
    import_rules (config s2) = import_rules (config s) /\
    quality_checks (config s2) = quality_checks (config s) /\
    observers s2 = delete (abspath w folder_path) (observers s).
Proof.
  intros Hex Hnew.
  destruct (add_watch_folder_new s folder_path category en Hex Hnew)
    as (s1 & E1 & Hc1 & Ho1 & _).
  destruct (remove_watch_folder_spec folder_path s1) as (s2 & E2 & Hc2 & Ho2 & _).
  exists s1, s2. split; [exact E1|]. split; [exact E2|].
  rewrite Hc2, Ho2, Hc1, Ho1. cbn. split.
  - rewrite filter_app, filter_other_paths by exact Hnew.
    rewrite filter_cons, filter_nil. cbn.
    destruct (decide (abspath w folder_path <> abspath w folder_path)) as [Hne|_];
      [congruence|]. apply app_nil_r.
  - split; [reflexivity|]. split; [reflexivity|].
    destruct (_ && _ && _)%bool; [apply delete_insert_eq|reflexivity].
Qed.

(** X4: while monitoring runs, a new folder that exists is watched as soon
    as it is added, whatever [enabled] says: its observer is registered
    under the category unless the folder is gone or the observer fails to
    start, and in that case the folder is added all the same. *)
Theorem add_watch_folder_while_monitoring s (folder_path category : string) (en : bool) :
  is_monitoring s = true ->
  path_exists w folder_path = true ->
  abspath w folder_path ∉ watched_paths (config s) ->
  exists s',
    add_watch_folder w folder_path category en s = (Ok true, s') /\
    watched_paths (config s') = (watched_paths (config s) ++ [abspath w folder_path])%list /\
    (path_exists w (abspath w folder_path) = true ->
     observer_error w (abspath w folder_path) = None ->
     observers s' = <[abspath w folder_path := category]> (observers s)) /\
    (path_exists w (abspath w folder_path) = false \/
     observer_error w (abspath w folder_path) <> None ->
     observers s' = observers s).
Proof.
  intros Hm Hex Hnew.
  destruct (add_watch_folder_new s folder_path category en Hex Hnew)
    as (s' & E & Hc & Ho & _).
  exists s'. split; [exact E|]. rewrite Hc, Ho, Hm. unfold watched_paths. cbn.
  rewrite fmap_app. split; [reflexivity|]. split.
  - intros -> ->. reflexivity.
  - intros [->|Herr]; [reflexivity|].
    rewrite bool_decide_eq_false_2 by exact Herr. rewrite andb_false_r. reflexivity.
Qed.

Lemma run_op_keeps_distinct (op : FolderOp) s :
  NoDup (watched_paths (config s)) ->
  exists s', run_op w op s = (Ok tt, s') /\ NoDup (watched_paths (config s')).
Proof.
  intros Hnd. destruct op as [folder_path category en|folder_path| |]; cbn [run_op].
  - destruct (add_watch_folder_paths s folder_path category en) as (b & s' & E & Hp & _).
    cbv [bind]. rewrite E. exists s'. split; [reflexivity|]. rewrite Hp.
    destruct (path_exists w folder_path); cbv [andb]; [|rewrite app_nil_r; exact Hnd].
    unfold Py.str_in. case_bool_decide as Hin; cbv [negb]; [rewrite app_nil_r; exact Hnd|].
    apply NoDup_app. split; [exact Hnd|]. split; [|apply NoDup_singleton].
    intros x Hx Hx'. apply list_elem_of_singleton in Hx'. congruence.
  - destruct (remove_watch_folder_spec folder_path s) as (s' & E & Hc & _).
    exists s'. split; [exact E|]. rewrite Hc. unfold watched_paths in *. cbn.
    eapply sublist_NoDup; [exact Hnd|]. apply fmap_sublist, sublist_filter.
  - destruct (start_monitoring_frame s) as (b & s' & E & Hc).
    cbv [bind]. rewrite E. exists s'. split; [reflexivity|]. rewrite Hc. exact Hnd.
  - destruct (stop_monitoring_spec s) as (s' & E & Hc & _).
    exists s'. split; [exact E|]. rewrite Hc. exact Hnd.
Qed.

(** X5: no sequence of calls of [add_watch_folder], [remove_watch_folder],
    [start_monitoring] and [stop_monitoring] raises, and none breaks the
    rule of one watch entry per absolute path: paths that were distinct
    stay distinct. *)
Theorem watched_paths_stay_distinct (ops : list FolderOp) :
  forall s,
  NoDup (watched_paths (config s)) ->
  exists s', run_ops w ops s = (Ok tt, s') /\ NoDup (watched_paths (config s')).
Proof.
  induction ops as [|op rest IH]; intros s Hnd.
  - exists s. split; [reflexivity|exact Hnd].
  - cbn [run_ops]. cbv [bind].
    destruct (run_op_keeps_distinct op s Hnd) as (s1 & -> & Hnd1).
    apply IH, Hnd1.
Qed.

(** X6: [start_monitoring] returns [False] and only logs when watchdog is
    missing, and [True] with nothing changed but the log when monitoring
    already runs. Otherwise it returns [True], sets the flag and the start
    time, and gives an observer, under its category, to every enabled
    entry whose folder exists and whose observer starts; an entry that is
    disabled, missing or failing is skipped without harm to the others. *)
Theorem start_monitoring_cases s :
  (watchdog_available w = false ->
   start_monitoring w s =
     (Ok false,
      set_log (log s ++ [(ERROR, "File monitoring not available - watchdog package not installed")])%list s)) /\
  (watchdog_available w = true -> is_monitoring s = true ->
   start_monitoring w s =
     (Ok true, set_log (log s ++ [(WARNING, "Monitoring is already running")])%list s)) /\
  (watchdog_available w = true -> is_monitoring s = false ->
   exists s',
     start_monitoring w s = (Ok true, s') /\
     is_monitoring s' = true /\
     start_time (statistics s') = Some (datetime_now w (clock s)) /\
     config s' = config s /\
     (forall p, p ∉ watched_paths (config s) -> observers s' !! p = observers s !! p) /\
     (NoDup (watched_paths (config s)) ->
      forall e, e ∈ get_watch_folders (config s) ->
        observers s' !! we_path e =
          if startable w e then Some (we_category e) else observers s !! we_path e)).
Proof.
  split; [|split].
  - intros Hw. unfold start_monitoring. rewrite Hw. reflexivity.
  - intros Hw Hm. unfold start_monitoring. rewrite Hw. cbv [negb bind get]. rewrite Hm.
    reflexivity.
  - intros Hw Hm.
    destruct (start_monitoring_spec s Hw Hm) as (s' & E & Hm' & Ho & Hc & _ & Hst).
    exists s'. split; [exact E|]. split; [exact Hm'|]. rewrite Hst, Ho.
    split; [reflexivity|]. split; [exact Hc|]. split.
    + intros p Hp. apply observe_all_other. exact Hp.
    + intros Hnd e He. apply observe_all_entry; assumption.
Qed.

(** X7: [stop_monitoring] never raises. When monitoring runs it drops
    every observer and clears the flag; when it does not run it only logs
    a warning. In both cases configuration and statistics are kept, the
    start time included: after a start followed by a stop the manager
    still has the start time of that run. *)
Theorem stop_monitoring_cases s :
  (is_monitoring s = false ->
   stop_monitoring s =
     (Ok tt, set_log (log s ++ [(WARNING, "Monitoring is not running")])%list s)) /\
  (exists s',
     stop_monitoring s = (Ok tt, s') /\
     is_monitoring s' = false /\
     (is_monitoring s = true -> observers s' = ∅) /\
     config s' = config s /\ statistics s' = statistics s) /\
  (watchdog_available w = true -> is_monitoring s = false ->
   exists s1 s2,
     start_monitoring w s = (Ok true, s1) /\
     stop_monitoring s1 = (Ok tt, s2) /\
     is_monitoring s2 = false /\ observers s2 = ∅ /\
     start_time (statistics s2) = Some (datetime_now w (clock s))).
Proof.
  split; [|split].
  - intros Hm. unfold stop_monitoring. cbv [bind get]. rewrite Hm. reflexivity.
  - destruct (stop_monitoring_spec s) as (s' & E & Hc & Hst & _ & Hm & Ho).
    exists s'. split; [exact E|]. split; [exact Hm|].
    split; [intros Hrun; rewrite Ho, Hrun; reflexivity|]. auto.
  - intros Hw Hm.
    destruct (start_monitoring_spec s Hw Hm) as (s1 & E1 & Hm1 & _ & _ & _ & Hst1).
    destruct (stop_monitoring_spec s1) as (s2 & E2 & _ & Hst2 & _ & Hm2 & Ho2).
    exists s1, s2. split; [exact E1|]. split; [exact E2|]. split; [exact Hm2|].
    rewrite Ho2, Hm1, Hst2, Hst1. auto.
Qed.

Lemma add_folders_spec (folders : list string) :
  forall s,
  NoDup (watched_paths (config s)) ->
  exists s',
    add_folders w folders s = (Ok tt, s') /\
    NoDup (watched_paths (config s')) /\
    (forall p, p ∈ watched_paths (config s) -> p ∈ watched_paths (config s')) /\
    (forall f, f ∈ folders -> path_exists w f = true ->
               abspath w f ∈ watched_paths (config s')) /\
    is_monitoring s' = is_monitoring s.
Proof.
  induction folders as [|folder rest IH]; intros s Hnd.
  - exists s. split; [reflexivity|]. split; [exact Hnd|]. split; [auto|].
    split; [intros f Hf; inversion Hf|reflexivity].
  - cbn [add_folders]. cbv [bind].
    destruct (add_watch_folder_paths s folder "default" true) as (b & s1 & -> & Hp & Hm & _).
    assert (Hnd1 : NoDup (watched_paths (config s1))).
    { rewrite Hp. destruct (path_exists w folder); cbv [andb]; [|rewrite app_nil_r; exact Hnd].
      unfold Py.str_in. case_bool_decide as Hin; cbv [negb]; [rewrite app_nil_r; exact Hnd|].
      apply NoDup_app. split; [exact Hnd|]. split; [|apply NoDup_singleton].
      intros x Hx Hx'. apply list_elem_of_singleton in Hx'. congruence. }
    destruct (IH s1 Hnd1) as (s' & -> & Hnd' & Hkeep & Hadd & Hm').
    exists s'. split; [reflexivity|]. split; [exact Hnd'|]. split; [|split].
    + intros p Hin. apply Hkeep. rewrite Hp. apply elem_of_app. left. exact Hin.
    + intros f Hf Hex. apply elem_of_cons in Hf as [->|Hf]; [|apply Hadd; assumption].
      apply Hkeep. rewrite Hp, Hex. cbv [andb]. unfold Py.str_in.
      case_bool_decide as Hin; cbv [negb].
      * rewrite app_nil_r. exact Hin.
      * apply elem_of_app. right. apply list_elem_of_here.
    + rewrite Hm', Hm. reflexivity.
Qed.

(** X8: [InterchangePythonAPI.start_monitoring] never raises; afterwards
    every folder of its list that exists is watched, the folders watched
    before still are, watched paths that were distinct are still
    distinct, and monitoring runs whenever watchdog is available. *)
Theorem api_start_monitoring_watches (folders : list string) s :
  NoDup (watched_paths (config s)) ->
  exists s',
    api_start_monitoring w folders s = (Ok tt, s') /\
    NoDup (watched_paths (config s')) /\
    (forall p, p ∈ watched_paths (config s) -> p ∈ watched_paths (config s')) /\
    (forall f, f ∈ folders -> path_exists w f = true ->
               abspath w f ∈ watched_paths (config s')) /\
    (watchdog_available w = true -> is_monitoring s' = true).
Proof.
  intros Hnd. cbv [api_start_monitoring bind].
  destruct (add_folders_spec folders s Hnd) as (s1 & -> & Hnd1 & Hkeep & Hadd & Hm1).
  destruct (watchdog_available w) eqn:Hw.
  - destruct (is_monitoring s1) eqn:Hm.
    + unfold start_monitoring. rewrite Hw. cbv [negb bind get]. rewrite Hm.
      unfold_monad. eexists. split; [reflexivity|]. simpl. auto.
    + destruct (start_monitoring_spec s1 Hw Hm) as (s' & -> & Hm' & _ & Hc & _).
      exists s'. split; [reflexivity|]. rewrite Hc. auto.
  - unfold start_monitoring. rewrite Hw. unfold_monad. eexists. split; [reflexivity|].
    simpl. split; [exact Hnd1|]. split; [exact Hkeep|]. split; [exact Hadd|]. discriminate.
Qed.

End WatchFolders.

(** *** Lower case and base names *)

Lemma lower_ascii_idempotent (c : ascii) :
  Py.lower_ascii (Py.lower_ascii c) = Py.lower_ascii c.
Proof. destruct c as [[] [] [] [] [] [] [] []]; reflexivity. Qed.

Lemma lower_ascii_slash (c : ascii) :
  Ascii.eqb (Py.lower_ascii c) "/" = Ascii.eqb c "/".
Proof. destruct c as [[] [] [] [] [] [] [] []]; reflexivity. Qed.

Lemma lower_idempotent (x : string) : Py.lower (Py.lower x) = Py.lower x.
Proof.
  induction x as [|c x IH]; [reflexivity|]. cbn [Py.lower].
  rewrite lower_ascii_idempotent, IH. reflexivity.
Qed.

Lemma append_cons (c : ascii) (x y : string) : String c x +:+ y = String c (x +:+ y).
Proof. reflexivity. Qed.

Lemma append_nil_l (y : string) : "" +:+ y = y.
Proof. reflexivity. Qed.

Lemma lower_app (x y : string) : Py.lower (x +:+ y) = Py.lower x +:+ Py.lower y.
Proof.
  induction x as [|c x IH]; [reflexivity|].
  rewrite append_cons. cbn [Py.lower]. rewrite append_cons, IH. reflexivity.
Qed.

Lemma lower_basename_aux (x acc : string) :
  Py.lower (Py.basename_aux x acc) = Py.basename_aux (Py.lower x) (Py.lower acc).
Proof.
  revert acc. induction x as [|c x IH]; intros acc; [reflexivity|].
  cbn [Py.basename_aux Py.lower]. rewrite lower_ascii_slash.
  destruct (Ascii.eqb c "/").
  - apply (IH "").
  - rewrite IH, lower_app. reflexivity.
Qed.

(** Lower case and [os.path.basename] commute. *)
Lemma lower_basename (x : string) :
  Py.lower (Py.basename x) = Py.basename (Py.lower x).
Proof. apply (lower_basename_aux x ""). Qed.

Lemma append_assoc (x y z : string) : (x +:+ y) +:+ z = x +:+ (y +:+ z).
Proof.
  induction x as [|c x IH]; [reflexivity|]. rewrite !append_cons, IH. reflexivity.
Qed.

Lemma append_nil_r (x : string) : x +:+ "" = x.
Proof.
  induction x as [|c x IH]; [reflexivity|]. rewrite append_cons, IH. reflexivity.
Qed.

Lemma basename_aux_no_slash (x acc : string) :
  no_slash x = true -> Py.basename_aux x acc = acc +:+ x.
Proof.
  revert acc. induction x as [|c x IH]; intros acc Hx.
  - cbn [Py.basename_aux]. symmetry. apply append_nil_r.
  - cbn [no_slash] in Hx. apply andb_prop in Hx as [Hc Hx].
    cbn [Py.basename_aux]. destruct (Ascii.eqb c "/"); [discriminate|].
    rewrite IH by exact Hx. apply append_assoc.
Qed.

(** [os.path.basename] drops the directory. *)
Lemma basename_join (dir name : string) :
  no_slash name = true -> Py.basename (dir +:+ "/" +:+ name) = name.
Proof.
  intros Hn. unfold Py.basename. generalize "" at 2 as acc.
  induction dir as [|c dir IH]; intros acc.
  - rewrite append_nil_l, append_cons. cbn [Py.basename_aux]. change (Ascii.eqb "/" "/") with true.
    cbv iota. apply (basename_aux_no_slash name "" Hn).
  - rewrite append_cons. cbn [Py.basename_aux]. destruct (Ascii.eqb c "/"); apply IH.
Qed.

Section QualityAndPatterns.

Context {B : Type} `{Backend B}.
Variable w : World.

Implicit Type s : @State B.

Ltac case_inner :=
  match goal with
  | |- context [match ?x with _ => _ end] =>
      lazymatch x with
      | context [match _ with _ => _ end] => fail
      | _ => destruct x eqn:?
      end
  end.

Ltac unfold_monad :=
  unfold bind, ret, raise, get, modify, when, logger, update_statistics, try_except,
         call_translator in *; simpl in *.



Lemma existsb_fmap {A C} (f : C -> bool) (g : A -> C) (l : list A) :
  existsb f (g <$> l) = existsb (fun x => f (g x)) l.
Proof. induction l as [|x l IH]; [reflexivity|]. cbn. rewrite <- IH. reflexivity. Qed.

Lemma matches_by_lower_basename (p1 p2 : string) (patterns : list string) :
  Py.lower (Py.basename p1) = Py.lower (Py.basename p2) ->
  _matches_file_patterns w p1 patterns = _matches_file_patterns w p2 patterns.
Proof. intros E. unfold _matches_file_patterns. rewrite E. reflexivity. Qed.

(** X11: whether a file matches the patterns of a rule depends neither on
    its directory nor on the case of its name or of the patterns: paths
    that differ only in case match alike, lower-casing the patterns
    changes nothing, and a name matches alike with any directory in
    front. *)
Theorem patterns_ignore_case_and_directory (patterns : list string) :
  (forall p1 p2 : string,
     Py.lower p1 = Py.lower p2 ->
     _matches_file_patterns w p1 patterns = _matches_file_patterns w p2 patterns) /\
  (forall p : string,
     _matches_file_patterns w p (Py.lower <$> patterns) = _matches_file_patterns w p patterns) /\
  (forall dir name : string,
     no_slash name = true ->
     _matches_file_patterns w (dir +:+ "/" +:+ name) patterns
     = _matches_file_patterns w name patterns).
Proof.
  split; [|split].
  - intros p1 p2 E. apply matches_by_lower_basename.
    rewrite !lower_basename, E. reflexivity.
  - intros p. unfold _matches_file_patterns.
    destruct patterns as [|pat rest]; [reflexivity|].
    change (Py.lower <$> pat :: rest) with (Py.lower pat :: (Py.lower <$> rest)).
    cbn [existsb]. rewrite existsb_fmap, lower_idempotent. f_equal.
    induction rest as [|x rest IH]; [reflexivity|].
    cbn [existsb]. rewrite lower_idempotent, IH. reflexivity.
  - intros dir name Hn. apply matches_by_lower_basename.
    rewrite basename_join by exact Hn.
    unfold Py.basename. rewrite basename_aux_no_slash by exact Hn. reflexivity.
Qed.

End QualityAndPatterns.

(** *** Counters of single-file processing *)

Lemma dict_get_set_eq {V} (k : string) (v : V) (d : odict V) :
  dict_get k (dict_set k v d) = Some v.
Proof.
  induction d as [|[k' v'] d IH]; cbn.
  - rewrite String.eqb_refl. reflexivity.
  - destruct (String.eqb k k') eqn:E; cbn; rewrite E; [reflexivity|exact IH].
Qed.

Lemma dict_get_set_ne {V} (k k' : string) (v : V) (d : odict V) :
  k' <> k -> dict_get k' (dict_set k v d) = dict_get k' d.
Proof.
  intros Hne. induction d as [|[k0 v0] d IH]; cbn.
  - apply String.eqb_neq in Hne. rewrite Hne. reflexivity.
  - destruct (String.eqb k k0) eqn:E; cbn.
    + apply String.eqb_eq in E. subst k0. apply String.eqb_neq in Hne. rewrite Hne.
      reflexivity.
    + destruct (String.eqb k' k0); [reflexivity|exact IH].
Qed.

Lemma category_total_count (k : string) (d : odict Z) :
  category_total (dict_set k (default 0 (dict_get k d) + 1) d) = category_total d + 1.
Proof.
  unfold category_total. induction d as [|[k' v'] d IH]; cbn; [reflexivity|].
  destruct (String.eqb k k') eqn:E; cbn; [lia|]. rewrite IH. lia.
Qed.

Section Counters.

Context {B : Type} `{Backend B}.
Variable w : World.

Implicit Type s : @State B.

Ltac case_inner :=
  match goal with
  | |- context [match ?x with _ => _ end] =>
      lazymatch x with
      | context [match _ with _ => _ end] => fail
      | _ => destruct x eqn:?
      end
  end.

Ltac unfold_monad :=
  unfold bind, ret, raise, get, modify, when, logger, update_statistics, try_except,
         call_translator in *; simpl in *.

(** The counters after the [try] block, by its outcome. *)
Lemma process_body_counts (file_path category : string) s :
  let out := process_body w file_path category s in
  let st := statistics s in
  let st' := statistics out.2 in
  files_per_category st' =
    dict_set category (default 0 (dict_get category (files_per_category st)) + 1)
      (files_per_category st) /\
  last_activity st' = Some (datetime_now w (clock s)) /\
  start_time st' = start_time st /\
  match out.1 with
  | Ok true =>
      successful_imports st' = successful_imports st + 1 /\
      failed_imports st' = failed_imports st
  | Ok false =>
      successful_imports st' = successful_imports st /\
      (failed_imports st' = failed_imports st \/
       failed_imports st' = failed_imports st + 1)
  | Raise _ =>
      successful_imports st' = successful_imports st /\
      failed_imports st' = failed_imports st
  end.
Proof.
  unfold process_body, count_processed, _perform_quality_checks, execute_import, read_now.
  unfold_monad.
  repeat (case_inner; simpl in *); repeat split; try reflexivity; auto.
Qed.

(** The [finally] block and the [except] clause on the whole statistics. *)
Lemma record_processing_time_stats (start : float) s :
  exists s',
    record_processing_time w start s = (Ok tt, s') /\
    translator s' = translator s /\
    total_processed (statistics s') = total_processed (statistics s) /\
    successful_imports (statistics s') = successful_imports (statistics s) /\
    failed_imports (statistics s') = failed_imports (statistics s) /\
    start_time (statistics s') = start_time (statistics s) /\
    last_activity (statistics s') = last_activity (statistics s) /\
    files_per_category (statistics s') = files_per_category (statistics s) /\
    (length (processing_times (statistics s')) <= 100)%nat.
Proof.
  unfold record_processing_time, bind, read_time, update_statistics, modify. simpl.
  eexists. split; [reflexivity|]. simpl.
  destruct (Nat.ltb_spec 100
              (length (processing_times (statistics s)
                       ++ [PrimFloat.sub (time_time w (clock s)) start])%list)) as [Hl|Hl];
    simpl; repeat split; try reflexivity; try exact Hl.
  apply last_n_length.
Qed.

Lemma count_exception_stats (file_path e : string) s :
  exists s',
    count_exception file_path e s = (Ok false, s') /\
    translator s' = translator s /\
    total_processed (statistics s') = total_processed (statistics s) /\
    successful_imports (statistics s') = successful_imports (statistics s) /\
    failed_imports (statistics s') = failed_imports (statistics s) + 1 /\
    start_time (statistics s') = start_time (statistics s) /\
    last_activity (statistics s') = last_activity (statistics s) /\
    files_per_category (statistics s') = files_per_category (statistics s).
Proof.
  unfold count_exception. unfold_monad. eexists. split; [reflexivity|]. simpl. auto 8.
Qed.

(** The counters after a call of [process_single_file]. *)
Lemma process_single_file_stats s (file_path category event_type : string) :
  exists (b : bool) s',
    process_single_file w file_path category event_type s = (Ok b, s') /\
    let st := statistics s in
    let st' := statistics s' in
    total_processed st' = total_processed st + 1 /\
    successful_imports st' = successful_imports st + (if b then 1 else 0) /\
    (failed_imports st' = failed_imports st \/
     failed_imports st' = failed_imports st + 1) /\
    (b = true -> failed_imports st' = failed_imports st) /\
    files_per_category st' =
      dict_set category (default 0 (dict_get category (files_per_category st)) + 1)
        (files_per_category st) /\
    last_activity st' = Some (datetime_now w (S (clock s))) /\
    start_time st' = start_time st /\
    (length (processing_times st') <= 100)%nat /\
    config s' = config s.
Proof.
  cbv [process_single_file bind read_time try_finally try_except].
  pose proof (process_body_counts file_path category (set_clock (S (clock s)) s))
    as (Hfpc & Hla & Hstart & Hout).
  pose proof (process_body_frame w file_path category (set_clock (S (clock s)) s))
    as (_ & Htot & Hcfg & _).
  cbv zeta in *.
  change (statistics (set_clock (S (clock s)) s)) with (statistics s) in *.
  change (clock (set_clock (S (clock s)) s)) with (S (clock s)) in *.
  change (config (set_clock (S (clock s)) s)) with (config s) in *.
  destruct (process_body w file_path category (set_clock (S (clock s)) s))
    as [[b|e] s1]; cbn [fst snd] in *.
  - destruct (record_processing_time_stats (time_time w (clock s)) s1)
      as (s' & E & _ & Ht & Hs & Hf & Hst & Hl & Hc & Hlen).
    pose proof (record_processing_time_spec w (time_time w (clock s)) s1)
      as (s'' & E'' & _ & _ & _ & _ & Hcfg').
    rewrite E in E''. injection E'' as <-. rewrite E.
    exists b, s'. split; [reflexivity|].
    rewrite Ht, Hs, Hf, Hst, Hl, Hc, Hcfg', Htot, Hfpc, Hla, Hstart, Hcfg. cbn.
    destruct b; destruct Hout as [Hs1 Hf1]; rewrite Hs1;
      repeat split; auto; try lia; try discriminate.
  - destruct (count_exception_stats file_path e s1)
      as (s2 & E2 & _ & Ht2 & Hs2 & Hf2 & Hst2 & Hl2 & Hc2).
    rewrite E2.
    destruct (record_processing_time_stats (time_time w (clock s)) s2)
      as (s' & E & _ & Ht & Hs & Hf & Hst & Hl & Hc & Hlen).
    pose proof (record_processing_time_spec w (time_time w (clock s)) s2)
      as (s'' & E'' & _ & _ & _ & _ & Hcfg').
    rewrite E in E''. injection E'' as <-. rewrite E.
    exists false, s'. split; [reflexivity|].
    destruct Hout as [Hs1 Hf1].
    rewrite Ht, Hs, Hf, Hst, Hl, Hc, Hcfg', Ht2, Hs2, Hf2, Hst2, Hl2, Hc2,
      Htot, Hfpc, Hla, Hstart, Hs1, Hf1.
    assert (Hcfg2 : config s2 = config s1).
    { revert E2. unfold count_exception. unfold_monad. intros E2. injection E2 as <-.
      reflexivity. }
    rewrite Hcfg2, Hcfg. cbn. repeat split; auto; try lia; try discriminate.
Qed.

(** X12: the counters of a manager stay consistent. [reset_statistics]
    makes them so, and every call of [process_single_file] keeps them so:
    the processed files are the sum of the per-category counts, successes
    and failures are non-negative and together at most the processed
    files, and the history holds at most 100 samples. *)
Theorem statistics_stay_consistent :
  (forall s, exists s', reset_statistics w s = (Ok tt, s') /\ statistics_ok (statistics s')) /\
  (forall s (file_path category event_type : string),
     statistics_ok (statistics s) ->
     exists (b : bool) s',
       process_single_file w file_path category event_type s = (Ok b, s') /\
       statistics_ok (statistics s')).
Proof.
  split.
  - intros s. unfold reset_statistics, read_now. unfold_monad.
    destruct (is_monitoring s); simpl; eexists; (split; [reflexivity|]);
      unfold statistics_ok; simpl; repeat split; lia.
  - intros s file_path category event_type (Htot & Hs & Hf & Hsum & _).
    destruct (process_single_file_stats s file_path category event_type)
      as (b & s' & E & Ht' & Hs' & Hf' & Hb & Hfpc & _ & _ & Hlen & _).
    exists b, s'. split; [exact E|]. cbv zeta in *. unfold statistics_ok.
    rewrite Ht', Hs', Hfpc, category_total_count.
    split; [lia|]. split; [destruct b; lia|]. split; [lia|]. split; [|exact Hlen].
    destruct b; [rewrite (Hb eq_refl); lia|lia].
Qed.

(** X13: every call of [process_single_file] counts one processed file,
    under its category and no other, and stamps the last activity with
    the clock; it returns [True] exactly when it counts one more
    successful import, and then counts no failure. Start time and
    configuration are never changed. *)
Theorem process_single_file_counts s (file_path category event_type : string) :
  exists (b : bool) s',
    process_single_file w file_path category event_type s = (Ok b, s') /\
    let st := statistics s in
    let st' := statistics s' in
    total_processed st' = total_processed st + 1 /\
    (b = true <-> successful_imports st' = successful_imports st + 1) /\
    (b = false <-> successful_imports st' = successful_imports st) /\
    (b = true -> failed_imports st' = failed_imports st) /\
    dict_get category (files_per_category st') =
      Some (default 0 (dict_get category (files_per_category st)) + 1) /\
    (forall c, c <> category ->
       dict_get c (files_per_category st') = dict_get c (files_per_category st)) /\
    last_activity st' = Some (datetime_now w (S (clock s))) /\
    start_time st' = start_time st /\
    config s' = config s.
Proof.
  destruct (process_single_file_stats s file_path category event_type)
    as (b & s' & E & Ht' & Hs' & _ & Hb & Hfpc & Hla & Hst & _ & Hc).
  exists b, s'. split; [exact E|]. cbv zeta in *. rewrite Hfpc.
  split; [exact Ht'|]. split; [destruct b; split; intros; try reflexivity; lia|].
  split; [destruct b; split; intros; try reflexivity; try discriminate; lia|].
  split; [exact Hb|]. split; [apply dict_get_set_eq|].
  split; [intros c Hc'; apply dict_get_set_ne; exact Hc'|]. auto.
Qed.

(** The files the [try] block turns away before any call of the translator. *)
Lemma process_body_skips (file_path category : string) s :
  get_import_rules (config s) !! category = None \/
  (exists rules, get_import_rules (config s) !! category = Some rules /\
                 (rule_truthy rules = false \/ default true (auto_import rules) = false)) \/
  (default true (quality_checks (config s) ≫= enabled) = true /\
   (path_exists w file_path = false \/
    default 100 (quality_checks (config s) ≫= max_file_size_mb) * 1024 * 1024
      < getsize w file_path \/
    getsize w file_path
      < default 1024 (quality_checks (config s) ≫= min_file_size_bytes))) ->
  let out := process_body w file_path category s in
  out.1 = Ok false /\ translator out.2 = translator s /\
  successful_imports (statistics out.2) = successful_imports (statistics s).
Proof.
  intros Hcond.
  unfold process_body, count_processed, _perform_quality_checks, execute_import, read_now.
  unfold_monad.
  destruct Hcond as [Hn|[(rules & Hl & [Ht|Ha])|(Hen & Hbad)]].
  - rewrite Hn. simpl. auto.
  - rewrite Hl, Ht. simpl. auto.
  - rewrite Hl, Ha. destruct (rule_truthy rules); simpl; auto.
  - destruct (get_import_rules (config s) !! category) as [rules|]; simpl; [|auto].
    destruct (rule_truthy rules); simpl; [|auto].
    destruct (default true (auto_import rules)); simpl; [|auto].
    rewrite Hen. simpl.
    destruct (path_exists w file_path) eqn:Hex; simpl; [|auto].
    destruct Hbad as [Hbad|Hbad]; [discriminate|].
    destruct (Z.ltb_spec (default 100 (quality_checks (config s) ≫= max_file_size_mb)
                          * 1024 * 1024) (getsize w file_path)); simpl; [auto|].
    destruct (Z.ltb_spec (getsize w file_path)
                (default 1024 (quality_checks (config s) ≫= min_file_size_bytes)));
      simpl; [auto|]. lia.
Qed.

(** X14: a file that is skipped (no rule for its category, an empty rule,
    [auto_import] off) or that the enabled quality policy turns away for
    not existing or for its size never reaches the translator: the call
    returns [False], the translator is as it was, and no success is
    counted. *)
Theorem turned_away_before_translator s (file_path category event_type : string) :
  get_import_rules (config s) !! category = None \/
  (exists rules, get_import_rules (config s) !! category = Some rules /\
                 (rule_truthy rules = false \/ default true (auto_import rules) = false)) \/
  (default true (quality_checks (config s) ≫= enabled) = true /\
   (path_exists w file_path = false \/
    default 100 (quality_checks (config s) ≫= max_file_size_mb) * 1024 * 1024
      < getsize w file_path \/
    getsize w file_path
      < default 1024 (quality_checks (config s) ≫= min_file_size_bytes))) ->
  exists s',
    process_single_file w file_path category event_type s = (Ok false, s') /\
    translator s' = translator s /\
    successful_imports (statistics s') = successful_imports (statistics s).
Proof.
  intros Hcond.
  cbv [process_single_file bind read_time try_finally try_except].
  pose proof (process_body_skips file_path category (set_clock (S (clock s)) s) Hcond)
    as (Ho & Ht & Hs).
  cbv zeta in *.
  destruct (process_body w file_path category (set_clock (S (clock s)) s))
    as [[b|e] s1]; cbn [fst snd] in *; [|discriminate].
  injection Ho as ->.
  destruct (record_processing_time_stats (time_time w (clock s)) s1)
    as (s' & -> & Ht' & _ & Hs' & _).
  exists s'. split; [reflexivity|]. rewrite Ht', Hs', Ht, Hs. split; reflexivity.
Qed.

End Counters.

(** *** Batch import, report file and handler threads *)

Section BatchAndReport.

Context {B : Type} `{Backend B}.
Variable w : World.

Implicit Type s : @State B.

Ltac unfold_monad :=
  unfold bind, ret, raise, get, modify, when, logger, update_statistics, try_except,
         call_translator in *; simpl in *.

Lemma same_manager_refl s : same_manager s s.
Proof. unfold same_manager. repeat split; reflexivity. Qed.

Lemma same_manager_trans s1 s2 s3 :
  same_manager s1 s2 -> same_manager s2 s3 -> same_manager s1 s3.
Proof.
  unfold same_manager.
  intros (-> & -> & -> & -> & -> & -> & ?) (-> & -> & -> & -> & -> & -> & ?).
  repeat split; try reflexivity. lia.
Qed.

Lemma batch_step_frame (destination_path : string) (n i : Z) (file_path : string)
    (results : BatchResults) s :
  same_manager s (batch_step w destination_path n i file_path results s).2.
Proof.
  unfold batch_step, log_progress. unfold_monad.
  destruct (import_file w (clock s) (translator s) file_path destination_path)
    as [[[[|]|e] t'] j]; simpl;
    try destruct ((i + 1) mod 10 =? 0); try destruct (i + 1 =? n); simpl;
    unfold same_manager; simpl; repeat split; try reflexivity; lia.
Qed.

Lemma batch_loop_frame (destination_path : string) (n : Z) (file_paths : list string) :
  forall (i : Z) (results : BatchResults) s,
  same_manager s (batch_loop w destination_path n i file_paths results s).2.
Proof.
  induction file_paths as [|file_path rest IH]; intros i results s.
  - apply same_manager_refl.
  - cbn [batch_loop]. cbv [bind].
    pose proof (batch_step_frame destination_path n i file_path results s) as Hstep.
    destruct (batch_step_spec w destination_path n i file_path results s) as (s1 & Hs1).
    destruct (import_file w (clock s) (translator s) file_path destination_path)
      as [[o t'] j].
    destruct Hs1 as (E & _). rewrite E in *. cbn [snd] in Hstep.
    eapply same_manager_trans; [exact Hstep|apply IH].
Qed.

(** X15: a batch import goes past the manager's book-keeping. Whatever
    the files, the category and the translator do, [batch_import_files]
    returns and leaves statistics, configuration, persisted configuration,
    observers, monitoring flag and written files as they were: the files
    it imports are counted only in the results it returns. *)
Theorem batch_import_keeps_manager (file_paths : list string)
    (destination_path category : string) s :
  exists results s',
    batch_import_files w file_paths destination_path category s = (Ok results, s') /\
    statistics s' = statistics s /\ config s' = config s /\
    is_monitoring s' = is_monitoring s /\ observers s' = observers s /\
    config_store s' = config_store s /\ written s' = written s /\
    (clock s + 4 <= clock s')%nat.
Proof.
  cbv [batch_import_files bind read_time read_now logger modify].
  match goal with |- context [batch_loop w _ _ _ _ ?r ?st] =>
    pose proof (batch_loop_frame destination_path (Z.of_nat (length file_paths))
                  file_paths 0 r st) as Hframe;
    destruct (batch_loop_spec w destination_path (Z.of_nat (length file_paths))
                file_paths 0 r st) as (results & s1 & E & _) end.
  rewrite E in *. cbn [snd] in Hframe.
  destruct Hframe as (Hst & Hc & Hm & Ho & Hcs & Hw & Hk). simpl in *.
  eexists _, _. split; [reflexivity|]. simpl.
  rewrite Hst, Hc, Hm, Ho, Hcs, Hw. repeat split; try reflexivity. lia.
Qed.

(** X16: what [generate_report] does with [output_file]. Without a file
    name ([None] or the empty string) nothing is written or logged. With
    one, the text written to the file is the text returned, and the save
    is logged; when writing fails nothing is written, the error is logged
    and the report text is still returned. *)
Theorem generate_report_saves_text (output_file : option string) s :
  exists text s',
    generate_report w output_file s = (Ok text, s') /\
    match output_file with
    | None => written s' = written s /\ log s' = log s
    | Some f =>
        if String.eqb f "" then written s' = written s /\ log s' = log s
        else match write_error w f with
             | None =>
                 written s' = (written s ++ [(f, text)])%list /\
                 log s' = (log s ++ [(INFO, "Report saved to: " +:+ f)])%list
             | Some e =>
                 written s' = written s /\
                 log s' = (log s ++ [(ERROR, "Error saving report: " +:+ e)])%list
             end
    end.
Proof.
  unfold generate_report, get_statistics, write_file, read_now. unfold_monad.
  destruct (start_time (statistics s)); simpl;
    (destruct output_file as [f|]; [destruct (String.eqb f ""); simpl;
                                    [|destruct (write_error w f); simpl]|]);
    eexists _, _; (split; [reflexivity|]); simpl; split; reflexivity.
Qed.

Lemma queue_file_covers (category : string) (h : FileEventHandler)
    (file_path event_type : string) s :
  threads_cover category h ->
  exists h' s',
    _queue_file_for_processing w h file_path event_type s = (Ok h', s') /\
    threads_cover category h'.
Proof.
  intros (Hc & Hall & Hlen).
  unfold _queue_file_for_processing, read_now. unfold_monad.
  destruct (Py.str_in file_path (q_path <$> processing_queue h)); simpl.
  - exists h, s. split; [reflexivity|]. repeat split; assumption.
  - eexists _, _. split; [reflexivity|]. unfold threads_cover. simpl.
    split; [exact Hc|]. split.
    + apply Forall_app. split; [exact Hall|]. constructor; [exact Hc|constructor].
    + rewrite length_app. simpl. lia.
Qed.

Lemma handle_covers (category : string) (h : FileEventHandler) (ev : HandlerEvent) s :
  threads_cover category h ->
  exists h' s', handle w h ev s = (Ok h', s') /\ threads_cover category h'.
Proof.
  intros Hok. destruct ev as [event|event|]; cbn [handle].
  - unfold on_created. destruct (is_directory event); cbn [negb].
    + exists h, s. split; [reflexivity|exact Hok].
    + apply queue_file_covers, Hok.
  - unfold on_modified. destruct (is_directory event); cbn [negb].
    + exists h, s. split; [reflexivity|exact Hok].
    + apply queue_file_covers, Hok.
  - destruct (Nat.eqb (sleeping h) 0).
    + exists h, s. split; [reflexivity|exact Hok].
    + destruct (process_queue_spec w h s) as (s' & E & _).
      eexists _, s'. split; [exact E|]. destruct Hok as (Hc & _ & _).
      unfold threads_cover. simpl. split; [exact Hc|]. split; [constructor|lia].
Qed.

Lemma handle_all_covers (category : string) (evs : list HandlerEvent) :
  forall (h : FileEventHandler) s,
  threads_cover category h ->
  exists h' s', handle_all w h evs s = (Ok h', s') /\ threads_cover category h'.
Proof.
  induction evs as [|ev rest IH]; intros h s Hok.
  - exists h, s. split; [reflexivity|exact Hok].
  - cbn [handle_all]. cbv [bind].
    destruct (handle_covers category h ev s Hok) as (h1 & s1 & -> & Hok1).
    apply IH, Hok1.
Qed.

(** Once every sleeping thread has woken up, the queue is empty, no
    thread is left, and every entry has been processed. *)
Lemma all_threads_wake (n : nat) :
  forall (h : FileEventHandler) s,
  sleeping h = n ->
  (length (processing_queue h) <= n)%nat ->
  exists h' s',
    handle_all w h (replicate n ThreadWakes) s = (Ok h', s') /\
    processing_queue h' = [] /\ sleeping h' = 0%nat /\
    total_processed (statistics s') =
      total_processed (statistics s) + Z.of_nat (length (processing_queue h)).
Proof.
  induction n as [|n IH]; intros h s Hn Hlen.
  - exists h, s. split; [reflexivity|].
    destruct (processing_queue h); [|simpl in Hlen; lia]. simpl. repeat split; [exact Hn|lia].
  - cbn [replicate handle_all handle]. cbv [bind]. rewrite Hn. cbn [Nat.eqb].
    destruct (process_queue_spec w h s) as (s1 & -> & Ht).
    destruct (IH (mkHandler (h_category h) [] (pred (sleeping h))) s1) as (h' & s' & E & Hq & Hs & Ht').
    + simpl. rewrite Hn. reflexivity.
    + simpl. lia.
    + exists h', s'. split; [exact E|]. split; [exact Hq|]. split; [exact Hs|].
      rewrite Ht', Ht. simpl. lia.
Qed.

(** X17: no queued file is left behind. Whatever events and wake-ups a
    new handler has seen, its entries carry its category and there are at
    least as many sleeping threads as entries; when these threads have all
    woken up, the queue is empty, no thread is left, and every entry has
    been handed to [process_single_file]. *)
Theorem handler_threads_cover_queue (category : string) (evs : list HandlerEvent) s :
  exists h1 s1 h2 s2,
    handle_all w (new_handler category) evs s = (Ok h1, s1) /\
    h_category h1 = category /\
    Forall (fun item => q_category item = category) (processing_queue h1) /\
    (length (processing_queue h1) <= sleeping h1)%nat /\
    handle_all w h1 (replicate (sleeping h1) ThreadWakes) s1 = (Ok h2, s2) /\
    processing_queue h2 = [] /\ sleeping h2 = 0%nat /\
    total_processed (statistics s2) =
      total_processed (statistics s1) + Z.of_nat (length (processing_queue h1)).
Proof.
  destruct (handle_all_covers category evs (new_handler category) s)
    as (h1 & s1 & E1 & Hc & Hall & Hlen).
  { unfold threads_cover, new_handler. simpl. split; [reflexivity|]. split; [constructor|lia]. }
  destruct (all_threads_wake (sleeping h1) h1 s1 eq_refl Hlen) as (h2 & s2 & E2 & Hq & Hs & Ht).
  exists h1, s1, h2, s2. auto 10.
Qed.

End BatchAndReport.

(** *** The translator wrapper, and the manager on top of it *)

Section TranslatorWrapper.

Variable w : World.

Implicit Type t : Translator.CustomFooTranslator.
Implicit Type s : @State Translator.CustomFooTranslator.

Ltac unfold_monad :=
  unfold bind, ret, raise, get, modify, when, logger, update_statistics, try_except,
         call_translator in *; simpl in *.


(** X18: [CustomFooTranslator.import_file] never raises, whatever the
    native translator does. Every call reads the clock twice, counts one
    translation and exactly one of a success (when it returns [True]) or a
    failure (when it returns [False]); so a wrapper whose translations are
    its successes plus its failures stays so. It returns [True] only for
    a file that exists and that [can_translate_file] accepts. *)
Theorem translator_import_counts (k : nat) t (file_path destination_path : string) :
  exists (b : bool) t',
    Translator.import_file w k t file_path destination_path = (Ok b, t', 2%nat) /\
    Translator._translator_instance t' = Translator._translator_instance t /\
    Translator.total_translations t' = Translator.total_translations t + 1 /\
    Translator.successful_translations t' =
      Translator.successful_translations t + (if b then 1 else 0) /\
    Translator.failed_translations t' =
      Translator.failed_translations t + (if b then 0 else 1) /\
    (b = true ->
     path_exists w file_path = true /\ Translator.can_translate_file w t file_path = true) /\
    (Translator.total_translations t =
       Translator.successful_translations t + Translator.failed_translations t ->
     Translator.total_translations t' =
       Translator.successful_translations t' + Translator.failed_translations t').
Proof.
  unfold Translator.import_file, Translator.import_file_body.
  change (Translator.can_translate_file w (Translator.add_total t) file_path)
    with (Translator.can_translate_file w t file_path).
  destruct (path_exists w file_path) eqn:Hex; cbn [negb].
  - destruct (Translator.can_translate_file w t file_path) eqn:Hcan; cbn [negb].
    + cbn [Translator._translator_instance Translator.add_total].
      destruct (Translator._translator_instance t) as [n|] eqn:Hinst.
      * destruct (Translator.translate_file_from_python n file_path destination_path)
          as [[|]|e]; eexists _, _; (split; [reflexivity|]); simpl;
          repeat split; try reflexivity; try discriminate; try assumption; try lia.
      * eexists _, _; (split; [reflexivity|]); simpl;
          repeat split; try reflexivity; try assumption; try lia.
    + eexists _, _; (split; [reflexivity|]); simpl;
        repeat split; try reflexivity; try discriminate; try lia.
  - eexists _, _; (split; [reflexivity|]); simpl;
      repeat split; try reflexivity; try discriminate; try lia.
Qed.

(** X19: without a native translator (development mode) the three checks
    of the wrapper agree: [can_translate_file], [validate_file] and
    [import_file] accept a file exactly when it exists and its name, in
    lower case, ends in [.foo]; [validate_file] gives an empty message
    exactly then, and changes nothing. *)
Theorem mock_checks_agree (k : nat) t (file_path destination_path : string) :
  Translator._translator_instance t = None ->
  let ok := (path_exists w file_path && Py.endswith ".foo" (Py.lower file_path))%bool in
  Translator.can_translate_file w t file_path = ok /\
  (Translator.import_file w k t file_path destination_path).1.1 = Ok ok /\
  exists message,
    Translator.validate_file w k t file_path = (Ok (ok, message), t, 0%nat) /\
    (ok = true <-> message = "").
Proof.
  intros Hinst ok. subst ok.
  unfold Translator.import_file, Translator.import_file_body, Translator.validate_file,
    Translator.can_translate_file.
  cbn [Translator._translator_instance Translator.add_total]. rewrite Hinst.
  destruct (path_exists w file_path); cbn [negb andb];
    [destruct (Py.endswith ".foo" (Py.lower file_path)); cbn [negb]|];
    (split; [reflexivity|]); (split; [reflexivity|]);
    eexists; (split; [reflexivity|]); split; intros E; try reflexivity; discriminate E.
Qed.



(** One import by the wrapper in development mode. *)
Lemma mock_import_file (k : nat) t (file_path destination_path : string) :
  Translator._translator_instance t = None ->
  exists t',
    Translator.import_file w k t file_path destination_path
      = (Ok (mock_accepts w file_path), t', 2%nat) /\
    Translator._translator_instance t' = None /\
    Translator.total_translations t' = Translator.total_translations t + 1.
Proof.
  intros Hinst.
  unfold Translator.import_file, Translator.import_file_body, Translator.can_translate_file,
    mock_accepts.
  cbn [Translator._translator_instance Translator.add_total]. rewrite Hinst.
  destruct (path_exists w file_path); cbn [negb andb];
    [destruct (Py.endswith ".foo" (Py.lower file_path)); cbn [negb]|];
    eexists; (split; [reflexivity|]); simpl; split; [exact Hinst|reflexivity
                                                    |exact Hinst|reflexivity
                                                    |exact Hinst|reflexivity].
Qed.

Lemma batch_loop_mock (destination_path : string) (n : Z) (file_paths : list string) :
  forall (i : Z) (results : BatchResults) s,
  Translator._translator_instance (translator s) = None ->
  exists results' s',
    batch_loop w destination_path n i file_paths results s = (Ok results', s') /\
    details results' =
      (details results
       ++ ((fun f => detail_of destination_path f (Ok (mock_accepts w f))) <$> file_paths))%list /\
    successful results' =
      successful results + Z.of_nat (length (filter (fun f => mock_accepts w f = true) file_paths)) /\
    Translator._translator_instance (translator s') = None /\
    Translator.total_translations (translator s') =
      Translator.total_translations (translator s) + Z.of_nat (length file_paths).
Proof.
  induction file_paths as [|file_path rest IH]; intros i results s Hinst.
  - exists results, s. simpl. rewrite app_nil_r. repeat split; try reflexivity; try lia.
    exact Hinst.
  - cbn [batch_loop]. cbv [bind].
    destruct (batch_step_spec w destination_path n i file_path results s) as (s1 & Hstep).
    change (@import_file _ translator_backend) with Translator.import_file in Hstep.
    destruct (mock_import_file (clock s) (translator s) file_path destination_path Hinst)
      as (t' & E & Hi' & Ht').
    rewrite E in Hstep. destruct Hstep as (-> & Hts & _).
    match goal with |- context [batch_loop w _ _ _ rest ?r s1] =>
      destruct (IH (i + 1) r s1) as (results' & s' & -> & Hd & Hs & Hi2 & Ht2);
        [rewrite Hts; exact Hi'|] end.
    exists results', s'. split; [reflexivity|].
    rewrite Hd, Hs, Ht2, Hts, Ht'. rewrite filter_cons. cbn [fmap list_fmap length].
    destruct (mock_accepts w file_path) eqn:Hok; cbn [succeeded detail_of];
      rewrite ?decide_True by reflexivity; rewrite ?decide_False by discriminate;
      simpl; rewrite <- ?app_assoc; simpl; repeat split; try reflexivity; try exact Hi2; lia.
Qed.

(** X21: a batch import in development mode asks only the wrapper: the
    detail of a file is [success] exactly when the file exists and has a
    name ending in [.foo] in lower case, and [failed] otherwise, whatever
    its size and the rules and quality policy of the configuration; every
    file counts one translation of the wrapper. *)
Theorem batch_import_development_mode (file_paths : list string)
    (destination_path category : string) s :
  Translator._translator_instance (translator s) = None ->
  exists results s',
    batch_import_files w file_paths destination_path category s = (Ok results, s') /\
    details results =
      ((fun f => detail_of destination_path f (Ok (mock_accepts w f))) <$> file_paths) /\
    successful results =
      Z.of_nat (length (filter (fun f => mock_accepts w f = true) file_paths)) /\
    Translator._translator_instance (translator s') = None /\
    Translator.total_translations (translator s') =
      Translator.total_translations (translator s) + Z.of_nat (length file_paths).
Proof.
  intros Hinst.
  cbv [batch_import_files bind read_time read_now logger modify].
  match goal with |- context [batch_loop w _ _ _ _ ?r ?st] =>
    destruct (batch_loop_mock destination_path (Z.of_nat (length file_paths)) file_paths 0 r st)
      as (results & s1 & -> & Hd & Hs & Hi & Ht); [exact Hinst|] end.
  simpl in Hd, Hs, Ht.
  eexists _, _. split; [reflexivity|]. simpl. rewrite Hd, Hs, Ht. auto.
Qed.

End TranslatorWrapper.

(** *** [TranslatorManager] and [APIConfig] *)

(** X22: outside the engine, [find_best_translator] and a new wrapper
    agree: the wrapper can translate a file exactly when the file exists
    and [find_best_translator] names a translator for it, which is then
    [CustomFooTranslator]. With or without the engine,
    [find_best_translator] never gives an empty name. *)
Theorem best_translator_matches_wrapper (w : World) (file_path : string) :
  Translator.can_translate_file w (Translator.new None) file_path =
    (path_exists w file_path
     && bool_decide (is_Some (TranslatorManager.find_best_translator None file_path)))%bool /\
  (forall name,
     TranslatorManager.find_best_translator None file_path = Some name ->
     name = "CustomFooTranslator") /\
  (forall unreal, TranslatorManager.find_best_translator unreal file_path <> Some "").
Proof.
  unfold Translator.can_translate_file, TranslatorManager.find_best_translator.
  cbn [Translator._translator_instance Translator.new].
  split; [|split].
  - destruct (path_exists w file_path); cbn [negb andb]; [|reflexivity].
    destruct (Py.endswith ".foo" (Py.lower file_path)).
    + rewrite bool_decide_eq_true_2 by (eexists; reflexivity). reflexivity.
    + rewrite bool_decide_eq_false_2 by (intros [x Hx]; discriminate). reflexivity.
  - intros name. destruct (Py.endswith ".foo" (Py.lower file_path)); congruence.
  - intros [u|].
    + destruct (TranslatorManager.find_best_translator_for_file u file_path) as [r|e];
        [|discriminate].
      destruct (String.eqb r "") eqn:E; [discriminate|].
      intros [= ->]. discriminate.
    + destruct (Py.endswith ".foo" (Py.lower file_path)); discriminate.
Qed.

Lemma last_cons_default {A} (x d : A) (l : list A) :
  default d (last (x :: l)) = default x (last l).
Proof.
  destruct l as [|y l]; [reflexivity|]. rewrite last_cons.
  destruct (last (y :: l)) eqn:E; [reflexivity|].
  apply last_None in E. discriminate.
Qed.

Section Settings.

(** [str.upper], which agrees with the upper-casing of ASCII text on
    ASCII keys. *)
Variable str_upper : string -> string.
Hypothesis str_upper_ascii :
  forall key, Py.isascii key = true -> str_upper key = APIConfig.upper key.

(** An attribute after [update_config]: the last value given for it, if
    it was there. *)
Lemma update_config_lookup (kwargs : list (string * APIConfig.PyVal)) :
  forall (cls : gmap string APIConfig.PyVal) (name : string),
  APIConfig.update_config str_upper cls kwargs !! name =
    (fun v0 => default v0 (last (APIConfig.given str_upper name kwargs))) <$> cls !! name.
Proof.
  unfold APIConfig.update_config, APIConfig.given.
  induction kwargs as [|[key value] rest IH]; intros cls name.
  - cbn. destruct (cls !! name); reflexivity.
  - cbn [foldl fst snd]. rewrite IH. rewrite filter_cons. cbn [fst].
    unfold APIConfig.hasattr.
    destruct (decide (str_upper key = name)) as [->|Hne].
    + cbn [fmap list_fmap snd]. case_bool_decide as Hin.
      * destruct Hin as [v0 Hv0]. rewrite lookup_insert_eq, Hv0. cbn.
        rewrite last_cons_default. reflexivity.
      * apply eq_None_not_Some in Hin. rewrite Hin. reflexivity.
    + case_bool_decide; [rewrite lookup_insert_ne by exact Hne|]; reflexivity.
Qed.

(** The eight settings are attributes of the class from the start. *)
Lemma initial_settings :
  exists v1 v2 v3 v4 v5 v6 v7 v8,
    APIConfig.initial !! "DEFAULT_DESTINATION_PATH" = Some v1 /\
    APIConfig.initial !! "DEFAULT_BATCH_SIZE" = Some v2 /\
    APIConfig.initial !! "DEFAULT_TIMEOUT" = Some v3 /\
    APIConfig.initial !! "ENABLE_DETAILED_LOGGING" = Some v4 /\
    APIConfig.initial !! "ENABLE_STATISTICS" = Some v5 /\
    APIConfig.initial !! "MAX_FILE_SIZE_MB" = Some v6 /\
    APIConfig.initial !! "WARN_FILE_SIZE_MB" = Some v7 /\
    APIConfig.initial !! "SUPPORTED_EXTENSIONS" = Some v8.
Proof. do 8 eexists. vm_compute. repeat split. Qed.

(** The keys of [get_config] in upper case. *)
Lemma config_keys_upper :
  str_upper "default_destination_path" = "DEFAULT_DESTINATION_PATH" /\
  str_upper "default_batch_size" = "DEFAULT_BATCH_SIZE" /\
  str_upper "default_timeout" = "DEFAULT_TIMEOUT" /\
  str_upper "enable_detailed_logging" = "ENABLE_DETAILED_LOGGING" /\
  str_upper "enable_statistics" = "ENABLE_STATISTICS" /\
  str_upper "max_file_size_mb" = "MAX_FILE_SIZE_MB" /\
  str_upper "warn_file_size_mb" = "WARN_FILE_SIZE_MB" /\
  str_upper "supported_extensions" = "SUPPORTED_EXTENSIONS".
Proof. repeat split; rewrite str_upper_ascii by reflexivity; reflexivity. Qed.

(** [get_config] after any updates: the eight keys, each with the value
    of the attribute of its name in upper case. *)
Lemma get_config_updated (kw : list (string * APIConfig.PyVal)) :
  exists d,
    APIConfig.get_config (APIConfig.update_config str_upper APIConfig.initial kw) = Some d /\
    d.*1 = ["default_destination_path"; "default_batch_size"; "default_timeout";
            "enable_detailed_logging"; "enable_statistics"; "max_file_size_mb";
            "warn_file_size_mb"; "supported_extensions"] /\
    (forall key, key ∈ d.*1 ->
       dict_get key d =
         APIConfig.update_config str_upper APIConfig.initial kw !! str_upper key).
Proof.
  destruct initial_settings
    as (v1 & v2 & v3 & v4 & v5 & v6 & v7 & v8 & H1 & H2 & H3 & H4 & H5 & H6 & H7 & H8).
  destruct config_keys_upper as (U1 & U2 & U3 & U4 & U5 & U6 & U7 & U8).
  pose proof (update_config_lookup kw APIConfig.initial) as L.
  pose proof (L "DEFAULT_DESTINATION_PATH") as L1. rewrite H1 in L1.
  pose proof (L "DEFAULT_BATCH_SIZE") as L2. rewrite H2 in L2.
  pose proof (L "DEFAULT_TIMEOUT") as L3. rewrite H3 in L3.
  pose proof (L "ENABLE_DETAILED_LOGGING") as L4. rewrite H4 in L4.
  pose proof (L "ENABLE_STATISTICS") as L5. rewrite H5 in L5.
  pose proof (L "MAX_FILE_SIZE_MB") as L6. rewrite H6 in L6.
  pose proof (L "WARN_FILE_SIZE_MB") as L7. rewrite H7 in L7.
  pose proof (L "SUPPORTED_EXTENSIONS") as L8. rewrite H8 in L8.
  clear L H1 H2 H3 H4 H5 H6 H7 H8.
  cbn [fmap option_fmap option_map] in *.
  generalize dependent (APIConfig.update_config str_upper APIConfig.initial kw). intros cls.
  intros L1 L2 L3 L4 L5 L6 L7 L8.
  unfold APIConfig.get_config. rewrite L1, L2, L3, L4, L5, L6, L7, L8.
  cbn [mbind option_bind].
  eexists. split; [reflexivity|]. split; [reflexivity|].
  intros key Hkey. cbn [fmap list_fmap fst] in Hkey.
  repeat (apply elem_of_cons in Hkey as [->|Hkey]);
    [| | | | | | | |apply elem_of_nil in Hkey; destruct Hkey].
  - rewrite U1, L1. reflexivity.
  - rewrite U2, L2. reflexivity.
  - rewrite U3, L3. reflexivity.
  - rewrite U4, L4. reflexivity.
  - rewrite U5, L5. reflexivity.
  - rewrite U6, L6. reflexivity.
  - rewrite U7, L7. reflexivity.
  - rewrite U8, L8. reflexivity.
Qed.

(** A key of [get_config] names a setting. *)
Lemma config_key_is_setting (key : string) :
  key ∈ ["default_destination_path"; "default_batch_size"; "default_timeout";
         "enable_detailed_logging"; "enable_statistics"; "max_file_size_mb";
         "warn_file_size_mb"; "supported_extensions"] ->
  is_Some (APIConfig.initial !! str_upper key).
Proof.
  destruct initial_settings
    as (v1 & v2 & v3 & v4 & v5 & v6 & v7 & v8 & H1 & H2 & H3 & H4 & H5 & H6 & H7 & H8).
  destruct config_keys_upper as (U1 & U2 & U3 & U4 & U5 & U6 & U7 & U8).
  intros Hkey.
  repeat (apply elem_of_cons in Hkey as [->|Hkey]);
    [| | | | | | | |apply elem_of_nil in Hkey; destruct Hkey].
  - rewrite U1. eauto.
  - rewrite U2. eauto.
  - rewrite U3. eauto.
  - rewrite U4. eauto.
  - rewrite U5. eauto.
  - rewrite U6. eauto.
  - rewrite U7. eauto.
  - rewrite U8. eauto.
Qed.

End Settings.

(** X23: the settings of [APIConfig] through any sequence of keyword
    arguments, for [str.upper] as Python has it (of which only its
    agreement with ASCII upper-casing on ASCII keys is used).
    [update_config] adds no attribute and loses none: an attribute holds
    the last value given under a key whose upper-casing is its name, of
    whatever type, and its default when none was given; keys that name
    no setting are dropped. [get_config] then returns the eight
    settings, each key with the value of the attribute of its name in
    upper case, so that a setting updated under its key is read back
    under that key. *)
Theorem api_config_round_trip (str_upper : string -> string)
    (kwargs : list (string * APIConfig.PyVal)) :
  (forall key, Py.isascii key = true -> str_upper key = APIConfig.upper key) ->
  let cls := APIConfig.update_config str_upper APIConfig.initial kwargs in
  (forall name,
     cls !! name =
       (fun v0 => default v0 (last (APIConfig.given str_upper name kwargs)))
         <$> APIConfig.initial !! name) /\
  exists d,
    APIConfig.get_config cls = Some d /\
    d.*1 = ["default_destination_path"; "default_batch_size"; "default_timeout";
            "enable_detailed_logging"; "enable_statistics"; "max_file_size_mb";
            "warn_file_size_mb"; "supported_extensions"] /\
    (forall key, key ∈ d.*1 -> dict_get key d = cls !! str_upper key) /\
    (forall key value more,
       key ∈ d.*1 ->
       exists d',
         APIConfig.get_config
           (APIConfig.update_config str_upper cls ((key, value) :: more)) = Some d' /\
         (APIConfig.given str_upper (str_upper key) more = [] ->
          dict_get key d' = Some value)).
Proof.
  intros Hup cls.
  split; [intros name; apply update_config_lookup|].
  destruct (get_config_updated str_upper Hup kwargs) as (d & Hd & Hkeys & Hval).
  exists d. split; [exact Hd|]. split; [exact Hkeys|]. split; [exact Hval|].
  intros key value more Hkey.
  subst cls.
  replace (APIConfig.update_config str_upper
             (APIConfig.update_config str_upper APIConfig.initial kwargs)
             ((key, value) :: more))
    with (APIConfig.update_config str_upper APIConfig.initial
            (kwargs ++ (key, value) :: more))
    by (unfold APIConfig.update_config; apply foldl_app).
  destruct (get_config_updated str_upper Hup (kwargs ++ (key, value) :: more)%list)
    as (d' & Hd' & Hkeys' & Hval').
  exists d'. split; [exact Hd'|]. intros Hlast.
  rewrite Hval' by (rewrite Hkeys', <- Hkeys; exact Hkey).
  rewrite update_config_lookup.
  rewrite Hkeys in Hkey. destruct (config_key_is_setting str_upper Hup key Hkey) as [v0 ->].
  unfold APIConfig.given in *. rewrite filter_app, filter_cons. cbn [fst].
  rewrite decide_True by reflexivity. rewrite fmap_app, fmap_cons, Hlast. cbn [snd].
  rewrite last_snoc. reflexivity.
Qed.

(** *** Sample runs of the properties with preconditions *)

(** Witness of X3: the sample folder [/watch], added to a fresh manager
    and removed again. *)
Lemma add_then_remove_restores_witness :
  path_exists Sample.world "/watch" = true /\
  (abspath Sample.world "/watch" ∉ watched_paths (config Sample.state0)) /\
  exists s1 s2,
    add_watch_folder Sample.world "/watch" "characters" true Sample.state0 = (Ok true, s1) /\
    remove_watch_folder Sample.world "/watch" s1 = (Ok tt, s2) /\
    get_watch_folders (config s2) = get_watch_folders (config Sample.state0) /\
    import_rules (config s2) = import_rules (config Sample.state0) /\
    quality_checks (config s2) = quality_checks (config Sample.state0) /\
    observers s2 = delete (abspath Sample.world "/watch") (observers Sample.state0).
Proof.
  split; [reflexivity|]. split; [apply not_elem_of_nil|].
  apply (add_then_remove_restores Sample.world Sample.state0 "/watch" "characters" true);
    [reflexivity|apply not_elem_of_nil].
Defined.

(** Witness of X4: the sample folder [/watch], added with [enabled] off
    while monitoring runs. *)
Lemma add_watch_folder_while_monitoring_witness :
  is_monitoring monitoring_state = true /\
  path_exists Sample.world "/watch" = true /\
  (abspath Sample.world "/watch" ∉ watched_paths (config monitoring_state)) /\
  exists s',
    add_watch_folder Sample.world "/watch" "characters" false monitoring_state = (Ok true, s') /\
    watched_paths (config s') =
      (watched_paths (config monitoring_state) ++ [abspath Sample.world "/watch"])%list /\
    (path_exists Sample.world (abspath Sample.world "/watch") = true ->
     observer_error Sample.world (abspath Sample.world "/watch") = None ->
     observers s' = <[abspath Sample.world "/watch" := "characters"]> (observers monitoring_state)) /\
    (path_exists Sample.world (abspath Sample.world "/watch") = false \/
     observer_error Sample.world (abspath Sample.world "/watch") <> None ->
     observers s' = observers monitoring_state).
Proof.
  split; [reflexivity|]. split; [reflexivity|]. split; [apply not_elem_of_nil|].
  apply (add_watch_folder_while_monitoring Sample.world monitoring_state "/watch"
           "characters" false);
    [reflexivity|reflexivity|apply not_elem_of_nil].
Defined.

(** Witness of X5: the sample folder added under two categories, removed,
    and monitoring started, on a fresh manager. *)
Lemma watched_paths_stay_distinct_witness :
  NoDup (watched_paths (config Sample.state0)) /\
  exists s',
    run_ops Sample.world
      [AddFolder "/watch" "characters" true; AddFolder "/watch" "props" true;
       StartMonitoring; RemoveFolder "/watch"; StopMonitoring] Sample.state0 = (Ok tt, s') /\
    NoDup (watched_paths (config s')).
Proof.
  split; [apply NoDup_nil_2|].
  apply (watched_paths_stay_distinct Sample.world
           [AddFolder "/watch" "characters" true; AddFolder "/watch" "props" true;
            StartMonitoring; RemoveFolder "/watch"; StopMonitoring] Sample.state0).
  apply NoDup_nil_2.
Defined.

(** Witness of X8: the sample folder and a missing one, on a fresh manager. *)
Lemma api_start_monitoring_watches_witness :
  NoDup (watched_paths (config Sample.state0)) /\
  exists s',
    api_start_monitoring Sample.world ["/watch"; "/nowhere"] Sample.state0 = (Ok tt, s') /\
    NoDup (watched_paths (config s')) /\
    (forall p, p ∈ watched_paths (config Sample.state0) -> p ∈ watched_paths (config s')) /\
    (forall f, f ∈ ["/watch"; "/nowhere"] -> path_exists Sample.world f = true ->
               abspath Sample.world f ∈ watched_paths (config s')) /\
    (watchdog_available Sample.world = true -> is_monitoring s' = true).
Proof.
  split; [apply NoDup_nil_2|].
  apply (api_start_monitoring_watches Sample.world ["/watch"; "/nowhere"] Sample.state0).
  apply NoDup_nil_2.
Defined.


(** Witness of X14: the sample manager has no rule for the category [props]. *)
Lemma turned_away_before_translator_witness :
  get_import_rules (config Sample.state0) !! "props" = None /\
  exists s',
    process_single_file Sample.world "/in/prop_barrel.foo" "props" "created" Sample.state0
      = (Ok false, s') /\
    translator s' = translator Sample.state0 /\
    successful_imports (statistics s') = successful_imports (statistics Sample.state0).
Proof.
  split; [reflexivity|].
  apply (turned_away_before_translator Sample.world Sample.state0 "/in/prop_barrel.foo"
           "props" "created").
  left. reflexivity.
Defined.

(** Witness of X19: a new wrapper outside the engine, on the sample hero file. *)
Lemma mock_checks_agree_witness :
  let t := Translator.new None in
  let file_path := "/in/hero_character.foo" in
  Translator._translator_instance t = None /\
  let ok := (path_exists Sample.world file_path
             && Py.endswith ".foo" (Py.lower file_path))%bool in
  Translator.can_translate_file Sample.world t file_path = ok /\
  (Translator.import_file Sample.world 0 t file_path "/Game/Characters/").1.1 = Ok ok /\
  exists message,
    Translator.validate_file Sample.world 0 t file_path = (Ok (ok, message), t, 0%nat) /\
    (ok = true <-> message = "").
Proof.
  split; [reflexivity|].
  apply (mock_checks_agree Sample.world 0 (Translator.new None) "/in/hero_character.foo"
           "/Game/Characters/").
  reflexivity.
Defined.


(** Witness of X21: a batch of three sample files, one too large for the
    quality policy and one with another extension. *)
Lemma batch_import_development_mode_witness :
  let file_paths := ["/in/huge_character.foo"; "/in/d.bar"; "/in/nowhere.foo"] in
  Translator._translator_instance (translator Sample.state0) = None /\
  exists results s',
    batch_import_files Sample.world file_paths "/Game/Batch/" "batch" Sample.state0
      = (Ok results, s') /\
    details results =
      ((fun f => detail_of "/Game/Batch/" f (Ok (mock_accepts Sample.world f))) <$> file_paths) /\
    successful results =
      Z.of_nat (length (filter (fun f => mock_accepts Sample.world f = true) file_paths)) /\
    Translator._translator_instance (translator s') = None /\
    Translator.total_translations (translator s') =
      Translator.total_translations (translator Sample.state0)
      + Z.of_nat (length file_paths).
Proof.
  split; [reflexivity|].
  apply (batch_import_development_mode Sample.world
           ["/in/huge_character.foo"; "/in/d.bar"; "/in/nowhere.foo"]
           "/Game/Batch/" "batch" Sample.state0).
  reflexivity.
Defined.
(** Witness of X23: one known key and one unknown key, with the
    upper-casing of ASCII text for [str.upper]. *)
Lemma api_config_round_trip_witness :
  let kwargs := [("max_file_size_mb", APIConfig.VInt 7); ("colour", APIConfig.VStr "red")] in
  (forall key, Py.isascii key = true -> APIConfig.upper key = APIConfig.upper key) /\
  let cls := APIConfig.update_config APIConfig.upper APIConfig.initial kwargs in
  (forall name,
     cls !! name =
       (fun v0 => default v0 (last (APIConfig.given APIConfig.upper name kwargs)))
         <$> APIConfig.initial !! name) /\
  exists d,
    APIConfig.get_config cls = Some d /\
    d.*1 = ["default_destination_path"; "default_batch_size"; "default_timeout";
            "enable_detailed_logging"; "enable_statistics"; "max_file_size_mb";
            "warn_file_size_mb"; "supported_extensions"] /\
    (forall key, key ∈ d.*1 -> dict_get key d = cls !! APIConfig.upper key) /\
    (forall key value more,
       key ∈ d.*1 ->
       exists d',
         APIConfig.get_config
           (APIConfig.update_config APIConfig.upper cls ((key, value) :: more)) = Some d' /\
         (APIConfig.given APIConfig.upper (APIConfig.upper key) more = [] ->
          dict_get key d' = Some value)).
Proof.
  split; [intros key _; reflexivity|].
  apply (api_config_round_trip APIConfig.upper
           [("max_file_size_mb", APIConfig.VInt 7); ("colour", APIConfig.VStr "red")]).
  intros key _. reflexivity.
Defined.

(** A key outside ASCII that names a setting once upper-cased: the
    setting is updated, and read back under its own key. *)
Example long_s_key_is_a_setting :
  let cls :=
    APIConfig.update_config upper_long_s APIConfig.initial
      [("max_file_ſize_mb", APIConfig.VInt 7); ("colour", APIConfig.VStr "red")] in
  cls !! "MAX_FILE_SIZE_MB" = Some (APIConfig.VInt 7) /\
  cls !! "COLOUR" = None /\
  (APIConfig.get_config cls ≫= dict_get "max_file_size_mb") = Some (APIConfig.VInt 7).
Proof. vm_compute. auto. Qed.
